(** * amap-app: the city-list proxy of [api/index.py]

    A shallow embedding of the Flask module [api/index.py] and of the
    fragments of Python, [requests] and [os.environ] it relies on,
    followed by the properties of its single endpoint
    [GET /api/get-cities].

    Conventions.
    - A Python [str] is a list of Unicode code points ([pystr]).
    - Values obtained from [response.json()] are JSON values ([json]);
      Python's [None] is [JNull], a [dict] is an association list that is
      read with [lookup] (first binding of a key), a [list] is a list.
    - Code that can raise returns a [result]; [Raise e] carries the
      exception object with its class, its [str(e)] and, for the
      exceptions of [requests], the attached response.
    - [requests] is the library from 2.27 on: [response.json()] raises
      [requests.exceptions.JSONDecodeError], which is both a
      [RequestException] and a [ValueError].  The texts of the exceptions
      of the interpreter are those of CPython 3.11.
    - An exception that leaves [get_cities] is Flask's to answer; the
      model stops there ([Escapes]).
    - stdout is a UTF-8 text stream with the [strict] error handler: a
      [print] of a text with a surrogate raises [UnicodeEncodeError].
      The warning of line 98 writes the [id] of a record, which the
      upstream chooses, and is part of the handler.  The other lines
      cannot raise: their texts are fixed, or written through [repr], or
      the text of an exception, the reason or the URL of a response,
      which hold no surrogate.  They are left out of the handler; the
      start-up messages are kept, and [Stdout] gives the handler again
      together with the lines it prints. *)

From Stdlib Require Import ZArith NArith List Bool String Ascii Lia.
From Stdlib Require Import Floats.SpecFloat.
Import ListNotations.

Set Warnings "-register-all".

(** ** Python strings *)

Module PyStr.

Definition codepoint := N.
Definition pystr := list codepoint.

(** Source literals are written as UTF-8 byte strings and decoded to code
    points, so that they read as in [index.py]. *)
Definition cont (a : ascii) : N := (N_of_ascii a - 128)%N.

Fixpoint decode (s : string) : pystr :=
  match s with
  | EmptyString => []
  | String a s1 =>
    let b0 := N_of_ascii a in
    if (b0 <? 192)%N then b0 :: decode s1
    else
      match s1 with
      | EmptyString => [b0]
      | String b s2 =>
        if (b0 <? 224)%N then ((b0 - 192) * 64 + cont b)%N :: decode s2
        else
          match s2 with
          | EmptyString => [b0]
          | String c s3 =>
            if (b0 <? 240)%N
            then ((b0 - 224) * 4096 + cont b * 64 + cont c)%N :: decode s3
            else
              match s3 with
              | EmptyString => [b0]
              | String d s4 =>
                ((b0 - 240) * 262144 + cont b * 4096 + cont c * 64 + cont d)%N
                  :: decode s4
              end
          end
      end
  end.

(** A literal of the source. *)
Definition py (s : string) : pystr := decode s.

Arguments py : simpl never.

Definition eqb (s t : pystr) : bool :=
  if list_eq_dec N.eq_dec s t then true else false.

(** [str.isspace] on one code point, the characters [str.strip()] removes:
    Unicode white space as CPython's [_PyUnicode_IsWhitespace] lists it. *)
Definition isspace (c : codepoint) : bool :=
  ((9 <=? c) && (c <=? 13)          (* \t \n \v \f \r *)
   || (28 <=? c) && (c <=? 32)      (* FS GS RS US and the space *)
   || (c =? 133) || (c =? 160)      (* NEL, no-break space *)
   || (c =? 5760)                   (* U+1680 *)
   || (8192 <=? c) && (c <=? 8202)  (* U+2000 .. U+200A *)
   || (c =? 8232) || (c =? 8233)    (* U+2028, U+2029 *)
   || (c =? 8239) || (c =? 8287)    (* U+202F, U+205F *)
   || (c =? 12288))%N.              (* U+3000 *)

Fixpoint lstrip (s : pystr) : pystr :=
  match s with
  | c :: s' => if isspace c then lstrip s' else s
  | [] => []
  end.

Definition rstrip (s : pystr) : pystr := rev (lstrip (rev s)).

(** [s.strip()]. *)
Definition strip (s : pystr) : pystr := rstrip (lstrip s).

(** [str(n)] for an [int]. *)
Fixpoint digits (d : Decimal.uint) : pystr :=
  match d with
  | Decimal.Nil => []
  | Decimal.D0 d => 48%N :: digits d
  | Decimal.D1 d => 49%N :: digits d
  | Decimal.D2 d => 50%N :: digits d
  | Decimal.D3 d => 51%N :: digits d
  | Decimal.D4 d => 52%N :: digits d
  | Decimal.D5 d => 53%N :: digits d
  | Decimal.D6 d => 54%N :: digits d
  | Decimal.D7 d => 55%N :: digits d
  | Decimal.D8 d => 56%N :: digits d
  | Decimal.D9 d => 57%N :: digits d
  end.

Definition str_int (z : Z) : pystr :=
  match Z.to_int z with
  | Decimal.Pos d => digits d
  | Decimal.Neg d => 45%N :: digits d
  end.

End PyStr.

Import PyStr.

(** ** Values, responses and exceptions *)

(** What [json.loads] builds: [None], [bool], [int], [float], [str], [list]
    and [dict] with [str] keys.  A [float] is kept as the IEEE value it
    denotes. *)
Inductive json : Type :=
| JNull
| JBool (b : bool)
| JInt (z : Z)
| JFloat (f : spec_float)
| JStr (s : pystr)
| JArr (l : list json)
| JObj (m : list (pystr * json)).

(** The body of an HTTP response as [response.json()] sees it: a JSON
    document, or text that the decoder rejects with the given message. *)
Inductive body : Type :=
| Json (j : json)
| NotJson (decoder_message : pystr).

(** The attributes of a [requests.Response] that the module reads. *)
Record response : Type := Response {
  status_code : Z;
  reason : pystr;
  url : pystr;
  content : body
}.

(** Exception classes that the module raises or catches.  [Timeout],
    [ConnectionError], [HTTPError], [JSONDecodeError] (the one of
    [requests]) and [RequestException] (any other member of that family)
    belong to [requests.exceptions]; [OtherException] is any further
    subclass of [Exception].  A [ConnectionError] that is also a
    [ConnectTimeout] counts as [Timeout]. *)
Inductive exc_class : Type :=
| Timeout
| ConnectionError
| HTTPError
| JSONDecodeError
| RequestException
| KeyError
| IndexError
| TypeError
| AttributeError
| UnicodeEncodeError
| OtherException.

(** An exception object: its class, [str(e)] and [e.response]. *)
Record exc : Type := Exc {
  exc_class_of : exc_class;
  exc_str : pystr;
  exc_response : option response
}.

(** [isinstance(e, requests.exceptions.Timeout)] *)
Definition is_Timeout (e : exc) : bool :=
  match exc_class_of e with
  | Timeout => true
  | _ => false
  end.

(** [isinstance(e, requests.exceptions.RequestException)] *)
Definition is_RequestException (e : exc) : bool :=
  match exc_class_of e with
  | Timeout | ConnectionError | HTTPError | JSONDecodeError
  | RequestException => true
  | _ => false
  end.

(** [isinstance(e, ValueError)]: [requests.exceptions.JSONDecodeError]
    derives from [json.JSONDecodeError], a [ValueError], and so does
    [UnicodeEncodeError]. *)
Definition is_ValueError (e : exc) : bool :=
  match exc_class_of e with
  | JSONDecodeError | UnicodeEncodeError => true
  | _ => false
  end.

(** Computations that return or raise. *)
Inductive result (A : Type) : Type :=
| Ok (a : A)
| Raise (e : exc).

Arguments Ok {A} a.
Arguments Raise {A} e.

Definition bind {A B : Type} (r : result A) (k : A -> result B) : result B :=
  match r with
  | Ok a => k a
  | Raise e => Raise e
  end.

Notation "x <- r ;; k" := (bind r (fun x => k))
  (at level 61, r at next level, right associativity).

(** ** The Python operations the handler applies to JSON values *)

Module Py.

(** [type(v).__name__] *)
Definition type_name (v : json) : pystr :=
  match v with
  | JNull => py "NoneType"
  | JBool _ => py "bool"
  | JInt _ => py "int"
  | JFloat _ => py "float"
  | JStr _ => py "str"
  | JArr _ => py "list"
  | JObj _ => py "dict"
  end.

(** [bool(v)], the test of [if v:] and of [and]. *)
Definition truthy (v : json) : bool :=
  match v with
  | JNull => false
  | JBool b => b
  | JInt z => negb (z =? 0)%Z
  | JFloat (S754_zero _) => false
  | JFloat _ => true
  | JStr [] => false
  | JStr _ => true
  | JArr [] => false
  | JArr _ => true
  | JObj [] => false
  | JObj _ => true
  end.

(** [v == s] for a [str] literal [s]. *)
Definition eq_str (v : json) (s : pystr) : bool :=
  match v with
  | JStr t => PyStr.eqb t s
  | _ => false
  end.

(** The value bound to a key of a [dict]. *)
Fixpoint lookup (k : pystr) (m : list (pystr * json)) : option json :=
  match m with
  | [] => None
  | (k', v) :: m' => if PyStr.eqb k' k then Some v else lookup k m'
  end.

Definition quote : codepoint := 39%N.

Definition no_attribute (v : json) (name : pystr) : exc :=
  Exc AttributeError
      (quote :: type_name v ++ py "' object has no attribute '" ++ name ++ [quote])
      None.

Definition not_subscriptable (v : json) : exc :=
  Exc TypeError (quote :: type_name v ++ py "' object is not subscriptable") None.

Definition not_iterable (v : json) : exc :=
  Exc TypeError (quote :: type_name v ++ py "' object is not iterable") None.

(** [v.get(k, default)]: only a [dict] has the method. *)
Definition get (v : json) (k : pystr) (default : json) : result json :=
  match v with
  | JObj m =>
    match lookup k m with
    | Some x => Ok x
    | None => Ok default
    end
  | _ => Raise (no_attribute v (py "get"))
  end.

(** [v[k]] for a [str] literal [k] of the source; [str(KeyError(k))] is
    [repr(k)], the literal between quotes. *)
Definition getitem (v : json) (k : pystr) : result json :=
  match v with
  | JObj m =>
    match lookup k m with
    | Some x => Ok x
    | None => Raise (Exc KeyError (quote :: k ++ [quote]) None)
    end
  | JStr _ => Raise (Exc TypeError (py "string indices must be integers, not 'str'") None)
  | JArr _ => Raise (Exc TypeError (py "list indices must be integers or slices, not str") None)
  | _ => Raise (not_subscriptable v)
  end.

(** [v[0]] *)
Definition getitem0 (v : json) : result json :=
  match v with
  | JArr (x :: _) => Ok x
  | JArr [] => Raise (Exc IndexError (py "list index out of range") None)
  | JStr (c :: _) => Ok (JStr [c])
  | JStr [] => Raise (Exc IndexError (py "string index out of range") None)
  | JObj _ => Raise (Exc KeyError (py "0") None)
  | _ => Raise (not_subscriptable v)
  end.

(** [v.strip()]: only a [str] has the method. *)
Definition strip (v : json) : result pystr :=
  match v with
  | JStr s => Ok (PyStr.strip s)
  | _ => Raise (no_attribute v (py "strip"))
  end.

(** The code points that UTF-8 does not encode: the surrogates, U+D800
    to U+DFFF. *)
Definition surrogate (c : codepoint) : bool :=
  ((55296 <=? c) && (c <=? 57343))%N.

Definition hex_digit (n : N) : codepoint :=
  (if n <? 10 then 48 + n else 87 + n)%N.

(** A code point below 65536 as [repr] escapes it: a backslash, [u] and
    four hexadecimal digits. *)
Definition escape_u (c : codepoint) : pystr :=
  [ 92%N; 117%N;
    hex_digit (c / 4096); hex_digit ((c / 256) mod 16);
    hex_digit ((c / 16) mod 16); hex_digit (c mod 16) ]%N.

(** The number of surrogates at the head of a text. *)
Fixpoint surrogate_run (s : pystr) : nat :=
  match s with
  | c :: s' => if surrogate c then S (surrogate_run s') else O
  | [] => O
  end.

(** What the UTF-8 encoder of stdout raises on [text], which starts at
    [position] of the line written: nothing when the text has no
    surrogate, and otherwise the [UnicodeEncodeError] of the first run of
    surrogates, with its place in the line. *)
Fixpoint encode_error (position : nat) (text : pystr) : option exc :=
  match text with
  | [] => None
  | c :: rest =>
    if surrogate c then
      Some (Exc UnicodeEncodeError
                match surrogate_run rest with
                | O =>
                  py "'utf-8' codec can't encode character '" ++ escape_u c
                     ++ py "' in position " ++ str_int (Z.of_nat position)
                     ++ py ": surrogates not allowed"
                | S n =>
                  py "'utf-8' codec can't encode characters in position "
                     ++ str_int (Z.of_nat position) ++ py "-"
                     ++ str_int (Z.of_nat (position + S n))
                     ++ py ": surrogates not allowed"
                end
                None)
    else encode_error (S position) rest
  end.

(** The items that [for x in v] visits: the elements of a [list], the
    keys of a [dict], the characters of a [str]. *)
Definition iter (v : json) : result (list json) :=
  match v with
  | JArr l => Ok l
  | JObj m => Ok (map (fun kv => JStr (fst kv)) m)
  | JStr s => Ok (map (fun c => JStr [c]) s)
  | _ => Raise (not_iterable v)
  end.

End Py.

(** ** The part of [requests] the handler calls *)

Module Requests.

(** The arguments of [requests.post(url, headers=..., json=..., timeout=...)]. *)
Record request : Type := Request {
  req_url : pystr;
  req_headers : list (pystr * pystr);
  req_json : json;
  req_timeout : Z
}.

(** [response.raise_for_status()]: an [HTTPError] that carries the response
    for a status from 400 to 599, nothing otherwise. *)
Definition raise_for_status (r : response) : result unit :=
  let st := status_code r in
  if ((400 <=? st) && (st <? 500))%Z then
    Raise (Exc HTTPError
               (str_int st ++ py " Client Error: " ++ reason r ++ py " for url: " ++ url r)
               (Some r))
  else if ((500 <=? st) && (st <? 600))%Z then
    Raise (Exc HTTPError
               (str_int st ++ py " Server Error: " ++ reason r ++ py " for url: " ++ url r)
               (Some r))
  else Ok tt.

(** [response.json()] *)
Definition json_of (r : response) : result json :=
  match content r with
  | Json j => Ok j
  | NotJson msg => Raise (Exc JSONDecodeError msg None)
  end.

End Requests.

(** ** The module [api/index.py] *)

Module Index.

(** *** Configuration and start-up (lines 9 to 49) *)

Definition environ := list (pystr * pystr).

(** [os.environ.get(name)] *)
Fixpoint environ_get (name : pystr) (env : environ) : option pystr :=
  match env with
  | [] => None
  | (k, v) :: env' => if PyStr.eqb k name then Some v else environ_get name env'
  end.

(** [load_dotenv()]: the variables of the [.env] file are added to the
    environment, those already set are kept. *)
Definition load_dotenv (dotenv os_environ : environ) : environ :=
  os_environ ++ dotenv.

Definition NOTION_CITY_PROPERTY_NAME : pystr := py "City Name".
Definition NOTION_API_VERSION : pystr := py "2022-06-28".

(** The two globals once the start-up checks have passed. *)
Record config : Type := Config {
  NOTION_API_TOKEN : pystr;
  NOTION_DATABASE_ID : pystr
}.

(** How the top level of the module ends: [exit(code)] after the printed
    lines, or the application with its route, ready to serve. *)
Inductive startup : Type :=
| Exit (stdout : list pystr) (code : Z)
| Serving (cfg : config) (allowed_origins : list pystr).

Definition main (dotenv os_environ : environ) : startup :=
  let env := load_dotenv dotenv os_environ in
  let token := environ_get (py "NOTION_API_TOKEN") env in
  let database_id := environ_get (py "NOTION_DATABASE_ID") env in
  let vercel_url := environ_get (py "VERCEL_URL") env in
  let allowed_origins :=
    match vercel_url with
    | Some (c :: v) => [py "https://" ++ c :: v]
    | _ => []
    end ++ [py "http://localhost:5173"] in
  match token with
  | None | Some [] => Exit [py "错误：未在 .env 文件中设置 NOTION_API_TOKEN"] 1
  | Some (c :: t) =>
    match database_id with
    | None | Some [] => Exit [py "错误：未在 .env 文件中设置 NOTION_DATABASE_ID"] 1
    | Some (d :: i) => Serving (Config (c :: t) (d :: i)) allowed_origins
    end
  end.

(** The server accepts requests only when the module has been loaded to
    its end. *)
Definition accepts_requests (s : startup) : bool :=
  match s with
  | Exit _ _ => false
  | Serving _ _ => true
  end.

(** *** The handler [get_cities] (lines 53 to 120) *)

(** What a call of the handler gives Flask: a JSON body with a status, or
    an exception that leaves the function. *)
Inductive reply : Type :=
| Respond (payload : json) (status : Z)
| Escapes (e : exc).

(** [jsonify({"error": message})] *)
Definition error_object (message : json) : json :=
  JObj [(py "error", message)].

(** [city_property['type'] == kind and city_property[kind]] as a test. *)
Definition kind_with_payload (city_property : json) (kind : pystr) : result bool :=
  t <- Py.getitem city_property (py "type");;
  if Py.eq_str t kind then
    payload <- Py.getitem city_property kind;;
    Ok (Py.truthy payload)
  else Ok false.

(** [city_property[kind][0]['plain_text']] *)
Definition first_plain_text (city_property : json) (kind : pystr) : result json :=
  payload <- Py.getitem city_property kind;;
  segment <- Py.getitem0 payload;;
  Py.getitem segment (py "plain_text").

(** Lines 82 to 88: the value of [city_name] after the [if]. *)
Definition city_name_of (city_property : json) : result json :=
  if Py.truthy city_property then
    is_title <- kind_with_payload city_property (py "title");;
    if is_title then first_plain_text city_property (py "title")
    else
      is_rich_text <- kind_with_payload city_property (py "rich_text");;
      if is_rich_text then first_plain_text city_property (py "rich_text")
      else Ok JNull
  else Ok JNull.

(** Line 98: the [print] of the warning.  The line written is a text of
    six characters, [page_id], a second text and [city_property].  A
    value that is not a [str] is written as its [repr], where surrogates
    are escaped, and [city_property] is falsy or a [dict] where the line
    is reached: only a [page_id] that is a [str] can hold a character
    that stdout refuses, and the write then raises before anything is
    written. *)
Definition print_warning (page_id city_property : json) : result unit :=
  match page_id with
  | JStr s =>
    match Py.encode_error 6 s with
    | Some e => Raise e
    | None => Ok tt
    end
  | _ => Ok tt
  end.

(** Lines 79 to 98: one turn of the loop, from [cities] to [cities]. *)
Definition visit_page (page : json) (cities : list pystr) : result (list pystr) :=
  properties <- Py.get page (py "properties") (JObj []);;
  city_property <- Py.get properties NOTION_CITY_PROPERTY_NAME JNull;;
  city_name <- city_name_of city_property;;
  named <- (if Py.truthy city_name
            then stripped <- Py.strip city_name;; Ok (Py.truthy (JStr stripped))
            else Ok false);;
  if named then
    stripped <- Py.strip city_name;;
    Ok (cities ++ [stripped])
  else
    page_id <- Py.get page (py "id") (JStr (py "未知ID"));;
    _ <- print_warning page_id city_property;;
    Ok cities.

(** Lines 78 to 98: [for page in results]. *)
Fixpoint visit_pages (pages : list json) (cities : list pystr) : result (list pystr) :=
  match pages with
  | [] => Ok cities
  | page :: pages' =>
    cities' <- visit_page page cities;;
    visit_pages pages' cities'
  end.

(** Lines 77 to 102: from [results] to the list that is returned. *)
Definition collect_cities (results : json) : result (list pystr) :=
  pages <- Py.iter results;;
  visit_pages pages [].

Section Handler.

Variable cfg : config.

(** [requests.post]: the upstream's answer to the request, a response or
    an exception. *)
Variable post : Requests.request -> result response.

Definition notion_api_url : pystr :=
  py "https://api.notion.com/v1/databases/" ++ NOTION_DATABASE_ID cfg ++ py "/query".

Definition headers : list (pystr * pystr) :=
  [ (py "Authorization", py "Bearer " ++ NOTION_API_TOKEN cfg);
    (py "Notion-Version", NOTION_API_VERSION);
    (py "Content-Type", py "application/json") ].

(** The arguments of the call of [requests.post] on line 71; the JSON
    body is the empty object. *)
Definition query : Requests.request :=
  Requests.Request notion_api_url headers (JObj []) 15.

(** Lines 71 to 102: the body of the [try]. *)
Definition try_body : result json :=
  response <- post query;;
  _ <- Requests.raise_for_status response;;
  data <- Requests.json_of response;;
  results <- Py.get data (py "results") (JArr []);;
  cities <- collect_cities results;;
  Ok (JArr (map JStr cities)).

(** Lines 110 to 116: [error_message] at the end of the second handler. *)
Definition request_error_message (e : exc) : result json :=
  let error_message := py "请求 Notion API 失败: " ++ exc_str e in
  match exc_response e with
  | Some r =>
    match Requests.json_of r with
    | Ok notion_error => Py.get notion_error (py "message") (JStr error_message)
    | Raise e' =>
      if is_ValueError e'
      then Ok (JStr (error_message ++ py " (状态码: " ++ str_int (status_code r) ++ py ")"))
      else Raise e'
    end
  | None => Ok (JStr error_message)
  end.

(** [getattr(e.response, 'status_code', 500)] *)
Definition status_of (e : exc) : Z :=
  match exc_response e with
  | Some r => status_code r
  | None => 500
  end.

Definition get_cities : reply :=
  match try_body with
  | Ok cities => Respond cities 200
  | Raise e =>
    if is_Timeout e then
      Respond (error_object (JStr (py "请求 Notion API 超时"))) 504
    else if is_RequestException e then
      match request_error_message e with
      | Ok error_message => Respond (error_object error_message) (status_of e)
      | Raise e' => Escapes e'
      end
    else
      Respond (error_object (JStr (py "服务器内部错误: " ++ exc_str e))) 500
  end.

End Handler.

End Index.

(** ** The words of the specification about one record *)

Module Spec.

(** The plain text of the first segment of a property payload. *)
Definition first_segment_text (payload : json) : option pystr :=
  match payload with
  | JArr (JObj segment :: _) =>
    match Py.lookup (py "plain_text") segment with
    | Some (JStr s) => Some s
    | _ => None
    end
  | _ => None
  end.

(** Steps 4b and 4b' of the specification: the property is of kind
    [title] or [rich_text], its payload is a non-empty sequence, and the
    text is the plain-text field of the first segment. *)
Definition property_text (property : json) : option pystr :=
  match property with
  | JObj fields =>
    match Py.lookup (py "type") fields with
    | Some (JStr kind) =>
      if PyStr.eqb kind (py "title") || PyStr.eqb kind (py "rich_text") then
        match Py.lookup kind fields with
        | Some payload => first_segment_text payload
        | None => None
        end
      else None
    | _ => None
    end
  | _ => None
  end.

(** Step 4a: the property of the record named [City Name]. *)
Definition record_property (page : json) : option json :=
  match page with
  | JObj fields =>
    match Py.lookup (py "properties") fields with
    | Some (JObj properties) => Py.lookup (py "City Name") properties
    | _ => None
    end
  | _ => None
  end.

Definition record_text (page : json) : option pystr :=
  match record_property page with
  | Some property => property_text property
  | None => None
  end.

(** A record counts when its text is non-empty after trimming. *)
Definition valid_record (page : json) : bool :=
  match record_text page with
  | Some s =>
    match PyStr.strip s with
    | [] => false
    | _ :: _ => true
    end
  | None => false
  end.

(** The name a valid record stands for. *)
Definition record_name (page : json) : pystr :=
  match record_text page with
  | Some s => PyStr.strip s
  | None => []
  end.

(** The kind of a property, when it has one. *)
Definition property_kind (property : json) : option json :=
  match property with
  | JObj fields => Py.lookup (py "type") fields
  | _ => None
  end.

(** The value has no entry under the key. *)
Definition lacks_key (k : pystr) (v : json) : bool :=
  match v with
  | JObj fields =>
    match Py.lookup k fields with
    | None => true
    | Some _ => false
    end
  | _ => true
  end.

(** A property object that is not empty and has no [type], or whose kind
    is [title] or [rich_text] with a non-empty segment list whose first
    segment has no [plain_text]. *)
Definition malformed (property : json) : bool :=
  match property with
  | JObj [] => false
  | JObj fields =>
    match Py.lookup (py "type") fields with
    | None => true
    | Some (JStr kind) =>
      if PyStr.eqb kind (py "title") || PyStr.eqb kind (py "rich_text") then
        match Py.lookup kind fields with
        | Some (JArr (segment :: _)) => lacks_key (py "plain_text") segment
        | _ => false
        end
      else false
    | Some _ => false
    end
  | _ => false
  end.

(** [needle] occurs in [text]. *)
Definition includes (needle text : pystr) : Prop :=
  exists before after, text = before ++ needle ++ after.

(** The string has neither leading nor trailing white space. *)
Definition trimmed (s : pystr) : Prop :=
  match s with
  | [] => True
  | c :: _ => isspace c = false /\ isspace (last s c) = false
  end.

End Spec.

(** The record is visited without an exception. *)
Definition extracts (page : json) : bool :=
  match Index.visit_page page [] with
  | Ok _ => true
  | Raise _ => false
  end.

(** The exception does not belong to [requests]. *)
Definition builtin (e : exc) : Prop := is_RequestException e = false.

(** The names a record adds to the list, in the specification's words. *)
Definition names_of (page : json) : list pystr :=
  if Spec.valid_record page then [Spec.record_name page] else [].

(** ** Upstream answers used as examples *)

Module Examples.

Definition cfg : Index.config :=
  Index.Config (py "secret_token") (py "0123456789abcdef").

Definition query_url : pystr :=
  py "https://api.notion.com/v1/databases/0123456789abcdef/query".

(** An upstream that answers every request with [r]. *)
Definition upstream (r : result response) : Requests.request -> result response :=
  fun _ => r.

Definition page_with (id : string) (property : json) : json :=
  JObj [ (py "id", JStr (py id));
         (py "properties", JObj [(py "City Name", property)]) ].

Definition title_property (text : string) : json :=
  JObj [ (py "type", JStr (py "title"));
         (py "title", JArr [JObj [(py "plain_text", JStr (py text))]]) ].

Definition number_property : json :=
  JObj [ (py "type", JStr (py "number")); (py "number", JInt 5) ].

(** A property object without [type]. *)
Definition untyped_property : json :=
  JObj [ (py "id", JStr (py "abc")) ].

(** A title whose first segment has no [plain_text]. *)
Definition textless_property : json :=
  JObj [ (py "type", JStr (py "title"));
         (py "title", JArr [JObj [(py "href", JNull)]]) ].

Definition listing (records : list json) : body :=
  Json (JObj [ (py "object", JStr (py "list")); (py "results", JArr records) ]).

Definition answer (status : Z) (reason : string) (b : body) : response :=
  Response status (py reason) query_url b.

(** The example of the specification: Tokyo, then a number property. *)
Definition tokyo_and_number : list json :=
  [ page_with "1" (title_property " Tokyo "); page_with "2" number_property ].

Definition tokyo_only : list json :=
  [ page_with "1" (title_property " Tokyo ") ].

Definition tokyo_and_untyped : list json :=
  [ page_with "1" (title_property " Tokyo "); page_with "2" untyped_property ].

Definition tokyo_and_textless : list json :=
  [ page_with "1" (title_property " Tokyo "); page_with "2" textless_property ].

(** The second record has the empty object as its property. *)
Definition tokyo_and_empty : list json :=
  [ page_with "1" (title_property " Tokyo "); page_with "2" (JObj []) ].

(** The second record has a title of white space only. *)
Definition tokyo_and_blank : list json :=
  [ page_with "1" (title_property " Tokyo "); page_with "2" (title_property "   ") ].

(** The exception of a read that exceeds the 15 seconds. *)
Definition read_timeout : exc :=
  Exc Timeout
      (py "HTTPSConnectionPool(host='api.notion.com', port=443): Read timed out. (read timeout=15)")
      None.

(** A read that exceeds the 15 seconds while the body is downloaded:
    [requests] reads the body inside [post] and raises the time-out of
    urllib3 as a [ConnectionError]. *)
Definition body_read_timeout : exc :=
  Exc ConnectionError
      (py "HTTPSConnectionPool(host='api.notion.com', port=443): Read timed out.")
      None.

(** The upstream whose answer does not arrive within the 15 seconds
    while the body is read. *)
Definition post_of_timeout : Requests.request -> result response :=
  upstream (Raise body_read_timeout).

(** A 404 of the upstream whose body is the JSON document [[]]. *)
Definition not_found_with_array : response :=
  answer 404 "Not Found" (Json (JArr [])).

End Examples.

(** ** What the module prints (lines 68, 98, 101, 105, 108 and 119) *)

Module Stdout.

(** A printed line.  The warning of line 98 and the summary of line 101
    interpolate a [dict] and a [list]; they are kept as the values they
    interpolate.  The other lines are kept as their text. *)
Inductive line : Type :=
| Text (s : pystr)
| Warning (page_id city_property : json)
| Summary (count : nat) (cities : list pystr).

(** Lines 79 to 98 with the line they print: the output of one turn of
    the loop, and its result.  A warning that stdout refuses raises and
    leaves no line. *)
Definition visit_page (page : json) (cities : list pystr)
  : list line * result (list pystr) :=
  match (properties <- Py.get page (py "properties") (JObj []);;
         city_property <- Py.get properties Index.NOTION_CITY_PROPERTY_NAME JNull;;
         city_name <- Index.city_name_of city_property;;
         named <- (if Py.truthy city_name
                   then stripped <- Py.strip city_name;; Ok (Py.truthy (JStr stripped))
                   else Ok false);;
         Ok (city_property, city_name, named)) with
  | Raise e => ([], Raise e)
  | Ok (city_property, city_name, true) =>
    ([], stripped <- Py.strip city_name;; Ok (cities ++ [stripped]))
  | Ok (city_property, city_name, false) =>
    match Py.get page (py "id") (JStr (py "未知ID")) with
    | Ok page_id =>
      match Index.print_warning page_id city_property with
      | Ok _ => ([Warning page_id city_property], Ok cities)
      | Raise e => ([], Raise e)
      end
    | Raise e => ([], Raise e)
    end
  end.

(** Lines 78 to 98: what is printed stays printed when a later record
    raises. *)
Fixpoint visit_pages (pages : list json) (cities : list pystr)
  : list line * result (list pystr) :=
  match pages with
  | [] => ([], Ok cities)
  | page :: pages' =>
    match visit_page page cities with
    | (out, Ok cities') =>
      let (out', r) := visit_pages pages' cities' in (out ++ out', r)
    | (out, Raise e) => (out, Raise e)
    end
  end.

(** Lines 104 to 120: the line and the reply of the three handlers. *)
Definition handle (e : exc) : list line * Index.reply :=
  if is_Timeout e then
    ([Text (py "错误：请求 Notion API 超时")],
     Index.Respond (Index.error_object (JStr (py "请求 Notion API 超时"))) 504)
  else if is_RequestException e then
    ([Text (py "错误：请求 Notion API 失败: " ++ exc_str e)],
     match Index.request_error_message e with
     | Ok error_message =>
       Index.Respond (Index.error_object error_message) (Index.status_of e)
     | Raise e' => Index.Escapes e'
     end)
  else
    ([Text (py "错误：处理 Notion 数据时发生未知错误: " ++ exc_str e)],
     Index.Respond
       (Index.error_object (JStr (py "服务器内部错误: " ++ exc_str e))) 500).

(** Lines 68 to 120: everything [get_cities] prints, and its reply. *)
Definition get_cities (cfg : Index.config)
           (post : Requests.request -> result response)
  : list line * Index.reply :=
  let sending := Text (py "正在向 Notion API 发送请求...") in
  match (response <- post (Index.query cfg);;
         _ <- Requests.raise_for_status response;;
         data <- Requests.json_of response;;
         results <- Py.get data (py "results") (JArr []);;
         Py.iter results) with
  | Raise e => let (out, reply) := handle e in (sending :: out, reply)
  | Ok pages =>
    match visit_pages pages [] with
    | (warnings, Ok cities) =>
      (sending :: warnings ++ [Summary (List.length cities) cities],
       Index.Respond (JArr (map JStr cities)) 200)
    | (warnings, Raise e) =>
      let (out, reply) := handle e in (sending :: warnings ++ out, reply)
    end
  end.

Definition is_warning (l : line) : bool :=
  match l with
  | Warning _ _ => true
  | _ => false
  end.

End Stdout.

(** ** Cases of the input that the properties below distinguish *)

Module Cases.

(** [not v] for the value of [os.environ.get]: unset, or set to the
    empty string. *)
Definition unset (v : option pystr) : bool :=
  match v with
  | None | Some [] => true
  | Some (_ :: _) => false
  end.

(** The kinds the handler reads. *)
Definition text_kind (kind : pystr) : bool :=
  PyStr.eqb kind (py "title") || PyStr.eqb kind (py "rich_text").


(** Values over which [for] cannot iterate. *)
Definition not_iterable (v : json) : bool :=
  match v with
  | JNull | JBool _ | JInt _ | JFloat _ => true
  | JStr _ | JArr _ | JObj _ => false
  end.

Definition is_object (v : json) : bool :=
  match v with
  | JObj _ => true
  | _ => false
  end.


(** The [id] that a warning shows for a record. *)
Definition shown_id (page : json) : json :=
  match page with
  | JObj fields =>
    match Py.lookup (py "id") fields with
    | Some id => id
    | None => JStr (py "未知ID")
    end
  | _ => JNull
  end.

(** A value that the warning can show as the [id]: any value but a
    [str] with a surrogate. *)
Definition printable (id : json) : bool :=
  match id with
  | JStr s => negb (existsb Py.surrogate s)
  | _ => true
  end.

(** The property that a warning shows for a record: [None] when the
    record has none. *)
Definition shown_property (page : json) : json :=
  match Spec.record_property page with
  | Some property => property
  | None => JNull
  end.

(** The warning printed for a record that gives no name. *)
Definition warning_of (page : json) : Stdout.line :=
  Stdout.Warning (shown_id page) (shown_property page).

End Cases.

(** ** Further examples *)

Module MoreExamples.

Import Examples.

(** A connection that could not be opened: no response is attached. *)
Definition connection_error : exc :=
  Exc RequestException
      (py "HTTPSConnectionPool(host='api.notion.com', port=443): Max retries exceeded")
      None.

(** The error body of the upstream for a wrong token. *)
Definition unauthorized : response :=
  answer 401 "Unauthorized"
         (Json (JObj [ (py "object", JStr (py "error"));
                       (py "status", JInt 401);
                       (py "code", JStr (py "unauthorized"));
                       (py "message", JStr (py "API token is invalid.")) ])).

(** A gateway page in place of JSON. *)
Definition bad_gateway : response :=
  answer 502 "Bad Gateway" (NotJson (py "Expecting value: line 1 column 1 (char 0)")).

(** An error body without [message]. *)
Definition rate_limited : response :=
  answer 429 "Too Many Requests" (Json (JObj [ (py "object", JStr (py "error")) ])).

(** A title in two segments. *)
Definition two_segment_title : json :=
  JObj [ (py "type", JStr (py "title"));
         (py "title", JArr [ JObj [(py "plain_text", JStr (py "New "))];
                             JObj [(py "plain_text", JStr (py "York"))] ]) ].


(** A property of kind [title] without the [title] key. *)
Definition title_without_payload : json :=
  JObj [ (py "type", JStr (py "title")) ].


(** A record without [properties] whose [id] is the lone surrogate
    U+D800, the JSON string [\ud800]. *)
Definition surrogate_page : json := JObj [ (py "id", JStr [55296%N]) ].

Definition paris : json :=
  JObj [ (py "type", JStr (py "rich_text"));
         (py "rich_text", JArr [ JObj [(py "plain_text", JStr (py "Paris"))] ]) ].

Definition dotenv_file : Index.environ :=
  [ (py "NOTION_API_TOKEN", py "token_of_dotenv");
    (py "NOTION_DATABASE_ID", py "0123456789abcdef") ].

Definition process_environ : Index.environ :=
  [ (py "NOTION_API_TOKEN", py "secret_token");
    (py "VERCEL_URL", py "amap-app.vercel.app") ].

End MoreExamples.

(** * Properties *)

Import Index.

(** ** Strings *)

Lemma eqb_eq (s t : pystr) : PyStr.eqb s t = true <-> s = t.
Proof.
  unfold PyStr.eqb. destruct (list_eq_dec N.eq_dec s t); split; congruence.
Qed.

Lemma eqb_refl (s : pystr) : PyStr.eqb s s = true.
Proof. now apply eqb_eq. Qed.

Lemma eqb_neq (s t : pystr) : PyStr.eqb s t = false <-> s <> t.
Proof.
  unfold PyStr.eqb. destruct (list_eq_dec N.eq_dec s t); split; congruence.
Qed.

Lemma lstrip_head (s : pystr) :
  match lstrip s with
  | [] => True
  | c :: _ => isspace c = false
  end.
Proof.
  induction s as [|c s IH]; simpl; [exact I|].
  destruct (isspace c) eqn:E; [exact IH | exact E].
Qed.

Lemma lstrip_last (s : pystr) (d : codepoint) :
  lstrip s <> [] -> last (lstrip s) d = last s d.
Proof.
  induction s as [|c s IH]; simpl; [congruence|].
  destruct (isspace c) eqn:E; [|reflexivity].
  intros H. rewrite (IH H). destruct s; [now elim H | reflexivity].
Qed.

Lemma lstrip_all_space (s : pystr) : forallb isspace s = true -> lstrip s = [].
Proof.
  induction s as [|c s IH]; simpl; [reflexivity|].
  destruct (isspace c); simpl; [exact IH | discriminate].
Qed.

Lemma hd_rev_last (s : pystr) (d : codepoint) : hd d (rev s) = last s d.
Proof.
  destruct s as [|c s] using rev_ind; [reflexivity|].
  now rewrite rev_app_distr, last_last.
Qed.

(** [strip] leaves white space at neither end. *)
Lemma strip_trimmed (s : pystr) : Spec.trimmed (PyStr.strip s).
Proof.
  unfold PyStr.strip, rstrip, Spec.trimmed.
  destruct (rev (lstrip (rev (lstrip s)))) as [|c t] eqn:E; [exact I|].
  assert (Hne : lstrip (rev (lstrip s)) <> []).
  { intros H. rewrite H in E. discriminate. }
  split.
  - assert (Hc : c = last (lstrip (rev (lstrip s))) c).
    { rewrite <- hd_rev_last, E. reflexivity. }
    rewrite lstrip_last in Hc by exact Hne.
    rewrite <- hd_rev_last, rev_involutive in Hc.
    pose proof (lstrip_head s) as Hh.
    destruct (lstrip s) as [|a l]; [now elim Hne|].
    simpl in Hc. now subst.
  - rewrite <- E, <- hd_rev_last, rev_involutive.
    pose proof (lstrip_head (rev (lstrip s))) as Hh.
    destruct (lstrip (rev (lstrip s))) as [|a l]; [now elim Hne|].
    exact Hh.
Qed.

(** A string of white space only strips to the empty string. *)
Lemma strip_all_space (s : pystr) : forallb isspace s = true -> PyStr.strip s = [].
Proof.
  intros H. unfold PyStr.strip. now rewrite (lstrip_all_space _ H).
Qed.

(** ** One record *)

Lemma bind_Ok {A B : Type} (r : result A) (k : A -> result B) (b : B) :
  bind r k = Ok b -> exists a, r = Ok a /\ k a = Ok b.
Proof. destruct r as [a|e]; simpl; [eauto | discriminate]. Qed.

Lemma get_Ok (v : json) (k : pystr) (d x : json) :
  Py.get v k d = Ok x ->
  exists m, v = JObj m /\
            x = match Py.lookup k m with Some y => y | None => d end.
Proof.
  destruct v; simpl; try discriminate.
  intros H. exists m. split; [reflexivity|].
  destruct (Py.lookup k m); congruence.
Qed.

Lemma getitem_Ok (v : json) (k : pystr) (x : json) :
  Py.getitem v k = Ok x -> exists m, v = JObj m /\ Py.lookup k m = Some x.
Proof.
  destruct v; simpl; try discriminate.
  intros H. exists m. split; [reflexivity|].
  destruct (Py.lookup k m); congruence.
Qed.

Lemma eq_str_true (v : json) (s : pystr) : Py.eq_str v s = true -> v = JStr s.
Proof.
  destruct v; simpl; try discriminate.
  intros H. apply eqb_eq in H. now subst.
Qed.

Lemma first_plain_text_Ok (fields : list (pystr * json)) (kind : pystr) (x : json) :
  first_plain_text (JObj fields) kind = Ok x ->
  exists payload,
    Py.lookup kind fields = Some payload /\
    Spec.first_segment_text payload =
      match x with JStr s => Some s | _ => None end.
Proof.
  unfold first_plain_text. intros H.
  apply bind_Ok in H as [payload [Hp H]].
  apply bind_Ok in H as [segment [Hs H]].
  apply getitem_Ok in Hp as [m [Hm Hp]]. injection Hm as <-.
  apply getitem_Ok in H as [seg [-> Hx]].
  exists payload. split; [exact Hp|].
  destruct payload as [| | | |[|c s]|[|y l]|]; simpl in Hs; try discriminate.
  injection Hs as ->. unfold Spec.first_segment_text. now rewrite Hx.
Qed.

Lemma kind_with_payload_false (fields : list (pystr * json)) (kind : pystr) :
  kind_with_payload (JObj fields) kind = Ok false ->
  exists t, Py.lookup (py "type") fields = Some t /\
    (Py.eq_str t kind = false \/
     exists payload, Py.lookup kind fields = Some payload /\ Py.truthy payload = false).
Proof.
  unfold kind_with_payload. intros H.
  apply bind_Ok in H as [t [Ht H]].
  apply getitem_Ok in Ht as [m [Hm Ht]]. injection Hm as <-.
  exists t. split; [exact Ht|].
  destruct (Py.eq_str t kind); [right | now left].
  apply bind_Ok in H as [payload [Hp H]].
  apply getitem_Ok in Hp as [m [Hm Hp]]. injection Hm as <-.
  exists payload. split; congruence.
Qed.

Lemma kind_with_payload_true (fields : list (pystr * json)) (kind : pystr) :
  kind_with_payload (JObj fields) kind = Ok true ->
  Py.lookup (py "type") fields = Some (JStr kind).
Proof.
  unfold kind_with_payload. intros H.
  apply bind_Ok in H as [t [Ht H]].
  apply getitem_Ok in Ht as [m [Hm Ht]]. injection Hm as <-.
  destruct (Py.eq_str t kind) eqn:E; [|discriminate].
  apply eq_str_true in E. now subst.
Qed.

Lemma falsy_payload_no_text (payload : json) :
  Py.truthy payload = false -> Spec.first_segment_text payload = None.
Proof. destruct payload as [| | | | |[|y l]|]; simpl; congruence. Qed.

(** The value the code extracts from a property is, when it is a string,
    the text the specification names, and the specification names no text
    otherwise. *)
Lemma city_name_of_text (city_property x : json) :
  city_name_of city_property = Ok x ->
  Spec.property_text city_property = match x with JStr s => Some s | _ => None end.
Proof.
  unfold city_name_of. intros H.
  destruct (Py.truthy city_property) eqn:Ht.
  2:{ injection H as <-. destruct city_property as [| | | | | |[|kv m]]; try reflexivity.
      discriminate. }
  apply bind_Ok in H as [is_title [H1 H]].
  assert (Hobj : exists fields, city_property = JObj fields).
  { unfold kind_with_payload in H1. apply bind_Ok in H1 as [t [H1 _]].
    apply getitem_Ok in H1 as [m [-> _]]. now exists m. }
  destruct Hobj as [fields ->].
  destruct is_title.
  - apply kind_with_payload_true in H1.
    apply first_plain_text_Ok in H as [payload [Hp Hx]].
    unfold Spec.property_text. rewrite H1, eqb_refl. simpl. now rewrite Hp.
  - apply bind_Ok in H as [is_rich [H2 H]].
    destruct is_rich.
    + apply kind_with_payload_true in H2.
      apply first_plain_text_Ok in H as [payload [Hp Hx]].
      unfold Spec.property_text. rewrite H2, eqb_refl, orb_true_r. now rewrite Hp.
    + injection H as <-.
      apply kind_with_payload_false in H1 as [t [Ht1 H1]].
      apply kind_with_payload_false in H2 as [t' [Ht2 H2]].
      rewrite Ht1 in Ht2. injection Ht2 as <-.
      unfold Spec.property_text. rewrite Ht1.
      destruct t; try reflexivity.
      destruct (PyStr.eqb s (py "title")) eqn:E1.
      * apply eqb_eq in E1. subst s. simpl.
        destruct H1 as [H1 | [payload [Hp Hf]]].
        -- simpl in H1. now rewrite eqb_refl in H1.
        -- rewrite Hp. now apply falsy_payload_no_text.
      * destruct (PyStr.eqb s (py "rich_text")) eqn:E2; [|reflexivity].
        apply eqb_eq in E2. subst s. simpl.
        destruct H2 as [H2 | [payload [Hp Hf]]].
        -- simpl in H2. now rewrite eqb_refl in H2.
        -- rewrite Hp. now apply falsy_payload_no_text.
Qed.

Lemma named_Ok (city_name : json) (named : bool) :
  (if Py.truthy city_name
   then stripped <- Py.strip city_name;; Ok (Py.truthy (JStr stripped))
   else Ok false) = Ok named ->
  named = match city_name with
          | JStr s => match PyStr.strip s with [] => false | _ :: _ => true end
          | _ => false
          end.
Proof.
  destruct city_name as [|b|z|f|s|l|m]; simpl.
  - congruence.
  - destruct b; [discriminate | congruence].
  - destruct (z =? 0)%Z; simpl; [congruence | discriminate].
  - destruct f; simpl; solve [congruence | discriminate].
  - destruct s as [|c s]; [intros H; now injection H as <-|].
    simpl. destruct (PyStr.strip (c :: s)); congruence.
  - destruct l; [congruence | discriminate].
  - destruct m; [congruence | discriminate].
Qed.

Lemma visit_page_Ok (page : json) (cities cities' : list pystr) :
  visit_page page cities = Ok cities' -> cities' = cities ++ names_of page.
Proof.
  unfold visit_page. intros H.
  apply bind_Ok in H as [properties [H1 H]].
  apply bind_Ok in H as [city_property [H2 H]].
  apply bind_Ok in H as [city_name [H3 H]].
  apply bind_Ok in H as [named [H4 H]].
  apply get_Ok in H1 as [m [-> H1]].
  apply get_Ok in H2 as [props [Hprops H2]].
  apply city_name_of_text in H3.
  apply named_Ok in H4.
  assert (Htext : Spec.record_text (JObj m) =
                  match city_name with JStr s => Some s | _ => None end).
  { unfold Spec.record_text, Spec.record_property. fold NOTION_CITY_PROPERTY_NAME.
    subst properties. destruct (Py.lookup (py "properties") m) as [p|].
    - subst p. destruct (Py.lookup NOTION_CITY_PROPERTY_NAME props) as [cp|].
      + now subst cp.
      + subst city_property. now destruct city_name.
    - injection Hprops as <-. simpl in H2. subst city_property.
      now destruct city_name. }
  unfold names_of, Spec.valid_record, Spec.record_name. rewrite Htext.
  assert (Hskip : named = false -> cities' = cities).
  { intros ->. cbn [bind Py.get] in H.
    destruct (Py.lookup (py "id") m) as [id|]; cbn [bind] in H;
      match type of H with
      | context [print_warning ?i ?c] => destruct (print_warning i c)
      end; cbn [bind] in H; congruence. }
  destruct city_name as [|b|z|f|s|l|m']; subst named;
    try (rewrite Hskip by reflexivity; now rewrite app_nil_r).
  destruct (PyStr.strip s) as [|c t] eqn:E.
  - rewrite Hskip by reflexivity. now rewrite app_nil_r.
  - simpl in H. rewrite E in H. simpl in H. congruence.
Qed.

(** Whether a record raises does not depend on the names collected so
    far, and the names it adds are appended to them. *)
Lemma visit_page_frame (page : json) (cities : list pystr) :
  visit_page page cities = (names <- visit_page page [];; Ok (cities ++ names)).
Proof.
  unfold visit_page.
  destruct (Py.get page (py "properties") (JObj [])) as [properties|e];
    [cbn [bind]|reflexivity].
  destruct (Py.get properties NOTION_CITY_PROPERTY_NAME JNull) as [cp|e];
    [cbn [bind]|reflexivity].
  destruct (city_name_of cp) as [city_name|e]; [cbn [bind]|reflexivity].
  match goal with
  | |- bind ?r _ = _ => destruct r as [[|]|e]; [cbn [bind]|cbn [bind]|reflexivity]
  end.
  - destruct (Py.strip city_name); reflexivity.
  - destruct (Py.get page (py "id") (JStr (py "未知ID"))) as [page_id|e];
      cbn [bind]; [|reflexivity].
    destruct (print_warning page_id cp); cbn [bind];
      [now rewrite app_nil_r | reflexivity].
Qed.

Lemma visit_page_extracts (page : json) (cities : list pystr) :
  extracts page = true -> visit_page page cities = Ok (cities ++ names_of page).
Proof.
  unfold extracts. intros H. rewrite visit_page_frame.
  destruct (visit_page page []) as [names|e] eqn:E; [|discriminate].
  apply visit_page_Ok in E. now subst.
Qed.

(** ** The loop *)

Lemma visit_pages_app (pre post : list json) (cities : list pystr) :
  visit_pages (pre ++ post) cities =
  (cities' <- visit_pages pre cities;; visit_pages post cities').
Proof.
  revert cities. induction pre as [|page pre IH]; intros cities; simpl; [reflexivity|].
  destruct (visit_page page cities) as [cities'|e]; simpl; [apply IH | reflexivity].
Qed.

Lemma visit_pages_extracts (pages : list json) (cities : list pystr) :
  forallb extracts pages = true ->
  visit_pages pages cities =
  Ok (cities ++ map Spec.record_name (filter Spec.valid_record pages)).
Proof.
  revert cities. induction pages as [|page pages IH]; intros cities H; simpl.
  - now rewrite app_nil_r.
  - simpl in H. apply andb_prop in H as [Hp Hps].
    rewrite (visit_page_extracts page cities Hp). simpl. rewrite (IH _ Hps).
    unfold names_of. destruct (Spec.valid_record page); simpl.
    + now rewrite <- app_assoc.
    + now rewrite app_nil_r.
Qed.

(** Each name on the list is the stripped, non-empty text of a record. *)
Lemma visit_pages_names (pages : list json) (cities cities' : list pystr) :
  visit_pages pages cities = Ok cities' ->
  exists names, cities' = cities ++ names /\
    Forall (fun s => s <> [] /\ Spec.trimmed s) names.
Proof.
  revert cities. induction pages as [|page pages IH]; intros cities H; simpl in H.
  - injection H as <-. exists []. split; [now rewrite app_nil_r | constructor].
  - apply bind_Ok in H as [mid [H1 H2]].
    apply visit_page_Ok in H1. apply IH in H2 as [names [-> Hn]].
    subst mid. exists (names_of page ++ names). split; [now rewrite app_assoc|].
    apply Forall_app. split; [|exact Hn].
    unfold names_of, Spec.valid_record, Spec.record_name.
    destruct (Spec.record_text page) as [s|]; [|constructor].
    destruct (PyStr.strip s) as [|c t] eqn:E; constructor; [|constructor].
    split; [discriminate|]. rewrite <- E. apply strip_trimmed.
Qed.

(** ** From the specification's shape of a record to the code *)

Lemma lookup_Some_nonempty (k : pystr) (m : list (pystr * json)) (x : json) :
  Py.lookup k m = Some x -> Py.truthy (JObj m) = true.
Proof. destruct m; [discriminate | reflexivity]. Qed.

Lemma eq_str_false (v : json) (s : pystr) : v <> JStr s -> Py.eq_str v s = false.
Proof.
  destruct v; simpl; try reflexivity.
  intros H. apply eqb_neq. congruence.
Qed.

Lemma first_segment_text_Some (payload : json) (s : pystr) :
  Spec.first_segment_text payload = Some s ->
  exists segment rest,
    payload = JArr (JObj segment :: rest) /\
    Py.lookup (py "plain_text") segment = Some (JStr s).
Proof.
  destruct payload as [| | | | |[|[| | | | | |segment] rest]|]; simpl; try discriminate.
  destruct (Py.lookup (py "plain_text") segment) as [[| | | |t| |]|] eqn:E;
    try discriminate.
  intros H. injection H as ->. now exists segment, rest.
Qed.

Lemma first_plain_text_of_payload (fields : list (pystr * json)) (kind s : pystr)
      (payload : json) :
  Py.lookup kind fields = Some payload ->
  Spec.first_segment_text payload = Some s ->
  kind_with_payload (JObj fields) kind =
    match Py.lookup (py "type") fields with
    | Some t => Ok (Py.eq_str t kind)
    | None => Raise (Exc KeyError (Py.quote :: py "type" ++ [Py.quote]) None)
    end /\
  first_plain_text (JObj fields) kind = Ok (JStr s).
Proof.
  intros Hp Hs. apply first_segment_text_Some in Hs as [segment [rest [-> Hs]]].
  unfold kind_with_payload, first_plain_text, Py.getitem. rewrite Hp. cbn [bind].
  split.
  - destruct (Py.lookup (py "type") fields) as [t|]; cbn [bind]; [|reflexivity].
    now destruct (Py.eq_str t kind).
  - cbn [Py.getitem0 bind]. now rewrite Hs.
Qed.

Lemma city_name_of_property_text (property : json) (s : pystr) :
  Spec.property_text property = Some s -> city_name_of property = Ok (JStr s).
Proof.
  destruct property as [| | | | | |fields]; simpl; try discriminate.
  destruct (Py.lookup (py "type") fields) as [[| | | |kind| |]|] eqn:Ht; try discriminate.
  destruct (PyStr.eqb kind (py "title") || PyStr.eqb kind (py "rich_text")) eqn:Hk;
    [|discriminate].
  destruct (Py.lookup kind fields) as [payload|] eqn:Hp; [|discriminate].
  intros Hs. unfold city_name_of.
  rewrite (lookup_Some_nonempty _ _ _ Ht).
  destruct (PyStr.eqb kind (py "title")) eqn:E1.
  - apply eqb_eq in E1. subst kind.
    destruct (first_plain_text_of_payload _ _ _ _ Hp Hs) as [H1 H2].
    rewrite H1, Ht. cbn [Py.eq_str]. rewrite eqb_refl. cbn [bind]. exact H2.
  - simpl in Hk. apply eqb_eq in Hk. subst kind.
    destruct (first_plain_text_of_payload _ _ _ _ Hp Hs) as [H1 H2].
    unfold kind_with_payload at 1. unfold Py.getitem at 1. rewrite Ht. cbn [bind].
    cbn [Py.eq_str]. rewrite E1. cbn [bind].
    rewrite H1, Ht. cbn [Py.eq_str]. rewrite eqb_refl. cbn [bind]. exact H2.
Qed.

(** The warning is printed when the [id] holds no surrogate, and raises a
    [UnicodeEncodeError] otherwise. *)
Lemma encode_error_None (position : nat) (s : pystr) :
  existsb Py.surrogate s = false -> Py.encode_error position s = None.
Proof.
  revert position. induction s as [|c s IH]; intros position; simpl;
    [reflexivity|].
  destruct (Py.surrogate c); simpl; [discriminate | apply IH].
Qed.


Lemma encode_error_class (position : nat) (s : pystr) (e : exc) :
  Py.encode_error position s = Some e -> exc_class_of e = UnicodeEncodeError.
Proof.
  revert position. induction s as [|c s IH]; intros position; simpl;
    [discriminate|].
  destruct (Py.surrogate c); [|apply IH].
  intros H. injection H as <-. reflexivity.
Qed.

Lemma print_warning_printable (page_id city_property : json) :
  Cases.printable page_id = true -> print_warning page_id city_property = Ok tt.
Proof.
  destruct page_id; try reflexivity. simpl. intros H.
  apply negb_true_iff in H. now rewrite (encode_error_None 6 s H).
Qed.


(** The visit of a record, from its property on. *)
Lemma visit_page_property (page property : json) (cities : list pystr) :
  Spec.record_property page = Some property ->
  visit_page page cities =
  (city_name <- city_name_of property;;
   named <- (if Py.truthy city_name
             then stripped <- Py.strip city_name;; Ok (Py.truthy (JStr stripped))
             else Ok false);;
   if named then stripped <- Py.strip city_name;; Ok (cities ++ [stripped])
   else _ <- print_warning (Cases.shown_id page) property;; Ok cities).
Proof.
  unfold Spec.record_property, Cases.shown_id.
  destruct page as [| | | | | |m]; try discriminate.
  destruct (Py.lookup (py "properties") m) as [[| | | | | |props]|] eqn:E1;
    try discriminate.
  fold NOTION_CITY_PROPERTY_NAME. intros E2.
  unfold visit_page, Py.get. rewrite E1. cbn [bind]. rewrite E2. cbn [bind].
  destruct (city_name_of property) as [city_name|e]; cbn [bind]; [|reflexivity].
  match goal with
  | |- bind ?r _ = _ => destruct r as [[|]|e]; cbn [bind]; try reflexivity
  end.
  now destruct (Py.lookup (py "id") m).
Qed.

(** A record with a text is visited without an exception when the text
    is not blank, and its stripped text is appended; for a blank text the
    warning is printed and nothing is appended. *)
Lemma visit_page_text (page : json) (s : pystr) (cities : list pystr) :
  Spec.record_text page = Some s ->
  visit_page page cities =
    match PyStr.strip s with
    | [] => _ <- print_warning (Cases.shown_id page) (Cases.shown_property page);;
            Ok cities
    | _ :: _ => Ok (cities ++ [PyStr.strip s])
    end.
Proof.
  unfold Spec.record_text, Cases.shown_property.
  destruct (Spec.record_property page) as [property|] eqn:Hprop; [|discriminate].
  intros Hs. apply city_name_of_property_text in Hs.
  rewrite (visit_page_property page property cities Hprop), Hs.
  cbn [bind Py.strip].
  destruct s as [|c s]; [reflexivity|].
  cbn [Py.truthy bind].
  destruct (PyStr.strip (c :: s)) as [|a t]; reflexivity.
Qed.

(** A record whose property has another kind prints the warning and
    leaves the list as it is. *)
Lemma visit_page_other_kind (page property kind : json) (cities : list pystr) :
  Spec.record_property page = Some property ->
  Spec.property_kind property = Some kind ->
  kind <> JStr (py "title") ->
  kind <> JStr (py "rich_text") ->
  visit_page page cities =
    (_ <- print_warning (Cases.shown_id page) (Cases.shown_property page);;
     Ok cities).
Proof.
  intros Hprop Hkind H1 H2.
  rewrite (visit_page_property page property cities Hprop).
  unfold Cases.shown_property. rewrite Hprop.
  unfold Spec.property_kind in Hkind.
  destruct property as [| | | | | |fields]; try discriminate.
  unfold city_name_of, kind_with_payload, Py.getitem.
  rewrite (lookup_Some_nonempty _ _ _ Hkind), Hkind. cbn [bind].
  rewrite (eq_str_false _ _ H1), (eq_str_false _ _ H2). reflexivity.
Qed.

(** ** Exceptions raised while the records are read *)

Lemma bind_Raise {A B : Type} (r : result A) (k : A -> result B) (e : exc) :
  bind r k = Raise e -> r = Raise e \/ exists a, r = Ok a /\ k a = Raise e.
Proof.
  destruct r as [a|e']; simpl; [eauto|].
  intros H. injection H as ->. now left.
Qed.

Lemma get_Raise (v : json) (k : pystr) (d : json) (e : exc) :
  Py.get v k d = Raise e -> builtin e.
Proof.
  destruct v; simpl; try (intros H; injection H as <-; reflexivity).
  destruct (Py.lookup k m); discriminate.
Qed.

Lemma getitem_Raise (v : json) (k : pystr) (e : exc) :
  Py.getitem v k = Raise e -> builtin e.
Proof.
  destruct v; simpl; try (intros H; injection H as <-; reflexivity).
  destruct (Py.lookup k m); [discriminate|].
  intros H; injection H as <-; reflexivity.
Qed.

Lemma getitem0_Raise (v : json) (e : exc) : Py.getitem0 v = Raise e -> builtin e.
Proof.
  destruct v as [| | | |[|c s]|[|x l]|]; simpl; try discriminate;
    intros H; injection H as <-; reflexivity.
Qed.

Lemma strip_Raise (v : json) (e : exc) : Py.strip v = Raise e -> builtin e.
Proof.
  destruct v; simpl; try discriminate; intros H; injection H as <-; reflexivity.
Qed.

Lemma iter_Raise (v : json) (e : exc) : Py.iter v = Raise e -> builtin e.
Proof.
  destruct v; simpl; try discriminate; intros H; injection H as <-; reflexivity.
Qed.

Lemma print_warning_Raise (page_id city_property : json) (e : exc) :
  print_warning page_id city_property = Raise e -> builtin e.
Proof.
  destruct page_id; simpl; try discriminate.
  destruct (Py.encode_error 6 s) as [e'|] eqn:E; [|discriminate].
  intros H. injection H as <-. unfold builtin, is_RequestException.
  now rewrite (encode_error_class 6 s e' E).
Qed.

Create HintDb py_raise.
#[local] Hint Resolve get_Raise getitem_Raise getitem0_Raise strip_Raise iter_Raise
  print_warning_Raise : py_raise.

(** Takes apart a hypothesis [H : _ = Raise e] along the binds and the
    conditionals of the code, and closes the cases where a Python
    operation raised. *)
Ltac raised H :=
  match type of H with
  | bind _ _ = Raise _ =>
    let a := fresh "a" in
    apply bind_Raise in H as [H | [a [_ H]]]; raised H
  | (if ?c then _ else _) = Raise _ => destruct c; raised H
  | Ok _ = Raise _ => discriminate H
  | _ => eauto with py_raise
  end.

Lemma kind_with_payload_Raise (city_property : json) (kind : pystr) (e : exc) :
  kind_with_payload city_property kind = Raise e -> builtin e.
Proof. unfold kind_with_payload. intros H. raised H. Qed.

Lemma first_plain_text_Raise (city_property : json) (kind : pystr) (e : exc) :
  first_plain_text city_property kind = Raise e -> builtin e.
Proof. unfold first_plain_text. intros H. raised H. Qed.

#[local] Hint Resolve kind_with_payload_Raise first_plain_text_Raise : py_raise.

Lemma city_name_of_Raise (city_property : json) (e : exc) :
  city_name_of city_property = Raise e -> builtin e.
Proof. unfold city_name_of. intros H. raised H. Qed.

#[local] Hint Resolve city_name_of_Raise : py_raise.

Lemma visit_page_Raise (page : json) (cities : list pystr) (e : exc) :
  visit_page page cities = Raise e -> builtin e.
Proof. unfold visit_page. intros H. raised H. Qed.

#[local] Hint Resolve visit_page_Raise : py_raise.

Lemma visit_pages_Raise (pages : list json) (cities : list pystr) (e : exc) :
  visit_pages pages cities = Raise e -> builtin e.
Proof.
  revert cities. induction pages as [|page pages IH]; intros cities H; simpl in H.
  - discriminate.
  - apply bind_Raise in H as [H | [mid [_ H]]]; eauto with py_raise.
Qed.

#[local] Hint Resolve visit_pages_Raise : py_raise.

Lemma collect_cities_Raise (results : json) (e : exc) :
  collect_cities results = Raise e -> builtin e.
Proof. unfold collect_cities. intros H. raised H. Qed.

(** Once a record raises, the loop raises whatever the records after it. *)
Lemma visit_pages_raises (pre rest : list json) (page : json) (cities : list pystr) :
  (forall cities', exists e, visit_page page cities' = Raise e) ->
  exists e, visit_pages (pre ++ page :: rest) cities = Raise e.
Proof.
  intros Hpage. rewrite visit_pages_app.
  destruct (visit_pages pre cities) as [mid|e]; cbn [bind]; [|now exists e].
  destruct (Hpage mid) as [e He]. simpl. rewrite He. now exists e.
Qed.

(** A malformed property makes the visit of its record raise. *)
Lemma visit_page_malformed (page property : json) (cities : list pystr) :
  Spec.record_property page = Some property ->
  Spec.malformed property = true ->
  exists e, visit_page page cities = Raise e.
Proof.
  unfold Spec.record_property.
  destruct page as [| | | | | |m]; try discriminate.
  destruct (Py.lookup (py "properties") m) as [[| | | | | |props]|] eqn:E1;
    try discriminate.
  fold NOTION_CITY_PROPERTY_NAME. intros E2 Hm.
  unfold visit_page, Py.get. rewrite E1. cbn [bind]. rewrite E2. cbn [bind].
  assert (Hraise : exists e, city_name_of property = Raise e).
  { destruct property as [| | | | | |[|kv fields]]; try discriminate.
    unfold Spec.malformed in Hm. unfold city_name_of.
    cbn [Py.truthy]. unfold kind_with_payload, first_plain_text, Py.getitem.
    destruct (Py.lookup (py "type") (kv :: fields)) as [[| | | |kind| |]|];
      try discriminate; [|eexists; reflexivity].
    cbn [bind Py.eq_str].
    destruct (PyStr.eqb kind (py "title")) eqn:Ek.
    - apply eqb_eq in Ek. subst kind. cbn [orb] in Hm.
      destruct (Py.lookup (py "title") (kv :: fields)) as [[| | | | |[|seg l]|]|];
        try discriminate.
      cbn [bind Py.truthy Py.getitem0].
      destruct seg as [| | | | | |sf]; try (eexists; reflexivity).
      simpl in Hm. destruct (Py.lookup (py "plain_text") sf); [discriminate|].
      eexists; reflexivity.
    - cbn [orb bind] in *.
      destruct (PyStr.eqb kind (py "rich_text")) eqn:Er; [|discriminate].
      apply eqb_eq in Er. subst kind.
      destruct (Py.lookup (py "rich_text") (kv :: fields)) as [[| | | | |[|seg l]|]|];
        try discriminate.
      cbn [bind Py.truthy Py.getitem0].
      destruct seg as [| | | | | |sf]; try (eexists; reflexivity).
      simpl in Hm. destruct (Py.lookup (py "plain_text") sf); [discriminate|].
      eexists; reflexivity. }
  destruct Hraise as [e He]. rewrite He. now exists e.
Qed.

(** ** The handler *)

Local Open Scope Z_scope.

Lemma raise_for_status_passes (r : response) :
  status_code r < 400 \/ 600 <= status_code r ->
  Requests.raise_for_status r = Ok tt.
Proof.
  intros H. unfold Requests.raise_for_status.
  destruct (400 <=? status_code r) eqn:E1, (status_code r <? 500) eqn:E2,
           (500 <=? status_code r) eqn:E3, (status_code r <? 600) eqn:E4;
    try reflexivity; lia.
Qed.

Lemma raise_for_status_raises (r : response) :
  400 <= status_code r < 600 ->
  exists text,
    Requests.raise_for_status r = Raise (Exc HTTPError text (Some r)) /\
    Spec.includes (str_int (status_code r)) text.
Proof.
  intros H. unfold Requests.raise_for_status.
  destruct (400 <=? status_code r) eqn:E1; [|lia].
  destruct (status_code r <? 500) eqn:E2; cbn [andb].
  - eexists. split; [reflexivity|]. exists []. eexists. reflexivity.
  - destruct (500 <=? status_code r) eqn:E3; [|lia].
    destruct (status_code r <? 600) eqn:E4; [|lia]. cbn [andb].
    eexists. split; [reflexivity|]. exists []. eexists. reflexivity.
Qed.

Section Replies.

Variable cfg : config.
Variable post : Requests.request -> result response.

(** What the [try] computes from an answer that [raise_for_status]
    lets through and whose body is a JSON object. *)
Lemma try_body_listing (r : response) (fields : list (pystr * json)) :
  post (query cfg) = Ok r ->
  status_code r < 400 \/ 600 <= status_code r ->
  content r = Json (JObj fields) ->
  try_body cfg post =
    (cities <- collect_cities
                 match Py.lookup (py "results") fields with
                 | Some results => results
                 | None => JArr []
                 end;;
     Ok (JArr (map JStr cities))).
Proof.
  intros Hpost Hst Hbody. unfold try_body. rewrite Hpost. cbn [bind].
  rewrite (raise_for_status_passes _ Hst). cbn [bind].
  unfold Requests.json_of. rewrite Hbody. cbn [bind Py.get].
  now destruct (Py.lookup (py "results") fields).
Qed.

(** The third handler: any exception of the [try] that is not one of
    [requests] is answered with 500 and its own text after a fixed
    prefix. *)
Lemma builtin_reply (e : exc) :
  try_body cfg post = Raise e ->
  builtin e ->
  get_cities cfg post =
    Respond (error_object (JStr (py "服务器内部错误: " ++ exc_str e))) 500.
Proof.
  intros Htry He. unfold get_cities. rewrite Htry.
  unfold builtin, is_RequestException in He.
  unfold is_Timeout, is_RequestException.
  destruct (exc_class_of e); try discriminate; reflexivity.
Qed.

(** The second handler on an answer that [raise_for_status] rejects: the
    reply for each form of the upstream body. *)
Lemma http_error_reply (r : response) :
  post (query cfg) = Ok r ->
  400 <= status_code r < 600 ->
  exists text,
    Requests.raise_for_status r = Raise (Exc HTTPError text (Some r)) /\
    Spec.includes (str_int (status_code r)) text /\
    get_cities cfg post =
      match content r with
      | Json (JObj fields) =>
        Respond (error_object
                   match Py.lookup (py "message") fields with
                   | Some message => message
                   | None => JStr (py "请求 Notion API 失败: " ++ text)
                   end)
                (status_code r)
      | Json other => Escapes (Py.no_attribute other (py "get"))
      | NotJson _ =>
        Respond (error_object
                   (JStr ((py "请求 Notion API 失败: " ++ text)
                            ++ py " (状态码: " ++ str_int (status_code r) ++ py ")")))
                (status_code r)
      end.
Proof.
  intros Hpost Hst.
  destruct (raise_for_status_raises r Hst) as [text [Hraise Hinc]].
  exists text. split; [exact Hraise|]. split; [exact Hinc|].
  unfold get_cities, try_body. rewrite Hpost. cbn [bind]. rewrite Hraise. cbn [bind].
  cbn [is_Timeout is_RequestException exc_class_of].
  unfold request_error_message, status_of. cbn [exc_response exc_str].
  unfold Requests.json_of.
  destruct (content r) as [j|msg]; [|reflexivity].
  destruct j; try reflexivity.
  cbn [Py.get]. now destruct (Py.lookup (py "message") m).
Qed.

End Replies.

(** A record whose visit never extends the list leaves any array that is
    returned as it is without the record. *)
Lemma silent_record_leaves_array (page : json) :
  (forall cities cities', visit_page page cities = Ok cities' -> cities' = cities) ->
  forall cfg post post' r r' fields fields' pre rest names status,
    post (query cfg) = Ok r ->
    post' (query cfg) = Ok r' ->
    status_code r < 400 \/ 600 <= status_code r ->
    status_code r' < 400 \/ 600 <= status_code r' ->
    content r = Json (JObj fields) ->
    content r' = Json (JObj fields') ->
    Py.lookup (py "results") fields = Some (JArr (pre ++ page :: rest)) ->
    Py.lookup (py "results") fields' = Some (JArr (pre ++ rest)) ->
    get_cities cfg post = Respond (JArr names) status ->
    get_cities cfg post' = Respond (JArr names) status.
Proof.
  intros Hnever cfg post post' r r' fields fields' pre rest names status
         Hp Hp' Hs Hs' Hb Hb' Hl Hl'.
  unfold get_cities.
  rewrite (try_body_listing cfg post r fields Hp Hs Hb).
  rewrite (try_body_listing cfg post' r' fields' Hp' Hs' Hb').
  rewrite Hl, Hl'. unfold collect_cities. cbn [Py.iter bind].
  rewrite !visit_pages_app.
  destruct (visit_pages pre []) as [mid|e]; cbn [bind]; [|exact (fun H => H)].
  simpl visit_pages at 1.
  destruct (visit_page page mid) as [mid'|e] eqn:Hpage; cbn [bind].
  - now rewrite (Hnever mid mid' Hpage).
  - unfold builtin. pose proof (visit_page_Raise page mid e Hpage) as He.
    unfold builtin, is_RequestException in He. unfold is_Timeout, is_RequestException.
    destruct (exc_class_of e); try discriminate.
Qed.

(** * The claims *)

Import Examples.

(** C1, as amended.  When the upstream answers with a 2xx status and a body
    whose [results] is a sequence of records, none of which raises while
    it is read, the handler returns 200 with a JSON array that holds, in
    the order of their records, the trimmed names of exactly those
    records that have a [City Name] property of kind [title] or
    [rich_text] with a non-empty segment list whose first segment's plain
    text is non-empty after trimming: as many strings as there are such
    records. *)
Theorem get_cities_valid_names
        (cfg : config) (post : Requests.request -> result response)
        (r : response) (fields : list (pystr * json)) (records : list json) :
  post (query cfg) = Ok r ->
  200 <= status_code r < 300 ->
  content r = Json (JObj fields) ->
  Py.lookup (py "results") fields = Some (JArr records) ->
  forallb extracts records = true ->
  get_cities cfg post =
    Respond (JArr (map JStr (map Spec.record_name
                                 (filter Spec.valid_record records)))) 200 /\
  List.length (map JStr (map Spec.record_name (filter Spec.valid_record records))) =
  List.length (filter Spec.valid_record records).
Proof.
  intros Hpost Hst Hbody Hres Hex. split.
  - unfold get_cities.
    rewrite (try_body_listing cfg post r fields Hpost) by (lia || assumption).
    rewrite Hres. unfold collect_cities. cbn [Py.iter bind].
    rewrite (visit_pages_extracts records [] Hex). reflexivity.
  - now rewrite !length_map.
Qed.

Lemma get_cities_valid_names_tokyo :
  get_cities cfg (upstream (Ok (answer 200 "OK" (listing tokyo_and_number)))) =
    Respond (JArr [JStr (py "Tokyo")]) 200 /\
  List.length [JStr (py "Tokyo")] = 1%nat.
Proof.
  apply (get_cities_valid_names
           cfg (upstream (Ok (answer 200 "OK" (listing tokyo_and_number))))
           (answer 200 "OK" (listing tokyo_and_number))
           [ (py "object", JStr (py "list")); (py "results", JArr tokyo_and_number) ]
           tokyo_and_number).
  - reflexivity.
  - simpl. lia.
  - reflexivity.
  - reflexivity.
  - vm_compute. reflexivity.
Defined.

(** C1 as stated fails: of two records, the first valid and the second
    with a property object without [type], the handler returns no name
    but a 500. *)
Lemma untyped_record_loses_valid_names :
  let r := answer 200 "OK" (listing tokyo_and_untyped) in
  200 <= status_code r < 300 /\
  content r = Json (JObj [ (py "object", JStr (py "list"));
                           (py "results", JArr tokyo_and_untyped) ]) /\
  List.length tokyo_and_untyped = 2%nat /\
  List.length (filter Spec.valid_record tokyo_and_untyped) = 1%nat /\
  get_cities cfg (upstream (Ok r)) =
    Respond (error_object (JStr (py "服务器内部错误: 'type'"))) 500.
Proof.
  cbv zeta. split; [simpl; lia|].
  split; [reflexivity|]. split; [reflexivity|].
  split; vm_compute; reflexivity.
Qed.

(** C2.  A record whose [City Name] property has a kind other than
    [title] or [rich_text] adds no element to the array the handler
    returns, whatever else the property holds: its visit never extends
    the list, and an array returned for the records is the array
    returned without the record.  When the warning of the record can be
    printed (its [id] holds no surrogate), the record raises nothing
    either: the names collected from the records, and the reply of the
    handler, are those obtained without the record. *)
Theorem other_kind_contributes_nothing (page property kind : json) :
  Spec.record_property page = Some property ->
  Spec.property_kind property = Some kind ->
  kind <> JStr (py "title") ->
  kind <> JStr (py "rich_text") ->
  (forall cities cities', visit_page page cities = Ok cities' -> cities' = cities) /\
  (forall cfg post post' r r' fields fields' pre rest names status,
      post (query cfg) = Ok r ->
      post' (query cfg) = Ok r' ->
      status_code r < 400 \/ 600 <= status_code r ->
      status_code r' < 400 \/ 600 <= status_code r' ->
      content r = Json (JObj fields) ->
      content r' = Json (JObj fields') ->
      Py.lookup (py "results") fields = Some (JArr (pre ++ page :: rest)) ->
      Py.lookup (py "results") fields' = Some (JArr (pre ++ rest)) ->
      get_cities cfg post = Respond (JArr names) status ->
      get_cities cfg post' = Respond (JArr names) status) /\
  (Cases.printable (Cases.shown_id page) = true ->
   (forall cities, visit_page page cities = Ok cities) /\
   (forall pre rest,
       collect_cities (JArr (pre ++ page :: rest)) =
       collect_cities (JArr (pre ++ rest))) /\
   (forall cfg post post' r r' fields fields' pre rest,
       post (query cfg) = Ok r ->
       post' (query cfg) = Ok r' ->
       status_code r < 400 \/ 600 <= status_code r ->
       status_code r' < 400 \/ 600 <= status_code r' ->
       content r = Json (JObj fields) ->
       content r' = Json (JObj fields') ->
       Py.lookup (py "results") fields = Some (JArr (pre ++ page :: rest)) ->
       Py.lookup (py "results") fields' = Some (JArr (pre ++ rest)) ->
       get_cities cfg post = get_cities cfg post')).
Proof.
  intros Hprop Hkind Ht Hr.
  assert (Hvisit : forall cities,
             visit_page page cities =
             (_ <- print_warning (Cases.shown_id page) (Cases.shown_property page);;
              Ok cities)).
  { intros cities.
    exact (visit_page_other_kind page property kind cities Hprop Hkind Ht Hr). }
  assert (Hnever : forall cities cities',
             visit_page page cities = Ok cities' -> cities' = cities).
  { intros cities cities'. rewrite Hvisit.
    destruct (print_warning (Cases.shown_id page) (Cases.shown_property page));
      cbn [bind]; congruence. }
  split; [exact Hnever|]. split.
  - intros cfg post post' r r' fields fields' pre rest names status
           Hp Hp' Hs Hs' Hb Hb' Hl Hl' Hreply.
    exact (silent_record_leaves_array page Hnever cfg post post' r r' fields fields'
             pre rest names status Hp Hp' Hs Hs' Hb Hb' Hl Hl' Hreply).
  - intros Hid.
    assert (Hskip : forall cities, visit_page page cities = Ok cities).
    { intros cities. rewrite Hvisit.
      now rewrite (print_warning_printable _ _ Hid). }
    assert (Hsame : forall pre rest,
               collect_cities (JArr (pre ++ page :: rest)) =
               collect_cities (JArr (pre ++ rest))).
    { intros pre rest. unfold collect_cities. cbn [Py.iter bind].
      rewrite !visit_pages_app.
      destruct (visit_pages pre []) as [mid|e]; cbn [bind]; [|reflexivity].
      simpl. now rewrite Hskip. }
    split; [exact Hskip|]. split; [exact Hsame|].
    intros cfg post post' r r' fields fields' pre rest Hp Hp' Hs Hs' Hb Hb' Hl Hl'.
    unfold get_cities.
    rewrite (try_body_listing cfg post r fields Hp Hs Hb).
    rewrite (try_body_listing cfg post' r' fields' Hp' Hs' Hb').
    now rewrite Hl, Hl', Hsame.
Qed.

Lemma number_property_contributes_nothing :
  get_cities cfg (upstream (Ok (answer 200 "OK" (listing tokyo_and_number)))) =
  get_cities cfg (upstream (Ok (answer 200 "OK" (listing tokyo_only)))).
Proof.
  refine (proj2 (proj2 (proj2 (proj2 (other_kind_contributes_nothing
                                        (page_with "2" number_property) number_property
                                        (JStr (py "number")) _ _ _ _)) _))
                cfg _ _
                (answer 200 "OK" (listing tokyo_and_number))
                (answer 200 "OK" (listing tokyo_only))
                [ (py "object", JStr (py "list")); (py "results", JArr tokyo_and_number) ]
                [ (py "object", JStr (py "list")); (py "results", JArr tokyo_only) ]
                [ page_with "1" (title_property " Tokyo ") ] []
                _ _ _ _ _ _ _ _);
    try reflexivity;
    try (intros H; vm_compute in H; discriminate H);
    simpl; lia.
Defined.

(** C3.  Every element of an array the handler returns is a string that is
    not empty and has white space at neither end; and a record whose text
    is white space only is left out: the text is stripped first and kept
    only when something remains, so the visit of such a record never
    extends the list, and it leaves the list as it is whenever the
    warning of the record can be printed (its [id] holds no surrogate). *)
Theorem names_are_trimmed_and_nonempty
        (cfg : config) (post : Requests.request -> result response) :
  (forall names status,
      get_cities cfg post = Respond (JArr names) status ->
      Forall (fun v => exists s, v = JStr s /\ s <> [] /\ Spec.trimmed s) names) /\
  (forall page s,
      Spec.record_text page = Some s ->
      forallb isspace s = true ->
      (forall cities cities',
          visit_page page cities = Ok cities' -> cities' = cities) /\
      (Cases.printable (Cases.shown_id page) = true ->
       forall cities, visit_page page cities = Ok cities)).
Proof.
  split.
  - intros names status H. unfold get_cities in H.
    destruct (try_body cfg post) as [payload|e] eqn:Htry.
    + injection H as -> _. unfold try_body in Htry.
      apply bind_Ok in Htry as [response [_ Htry]].
      apply bind_Ok in Htry as [_ [_ Htry]].
      apply bind_Ok in Htry as [data [_ Htry]].
      apply bind_Ok in Htry as [results [_ Htry]].
      apply bind_Ok in Htry as [cities [Hc Htry]].
      injection Htry as <-.
      unfold collect_cities in Hc. apply bind_Ok in Hc as [pages [_ Hc]].
      apply visit_pages_names in Hc as [found [-> Hfound]]. simpl.
      apply Forall_map. revert Hfound. apply Forall_impl.
      intros s [Hne Htrim]. now exists s.
    + destruct (is_Timeout e); [discriminate|].
      destruct (is_RequestException e); [|discriminate].
      destruct (request_error_message e); discriminate.
  - intros page s Htext Hspace.
    assert (Hvisit : forall cities,
               visit_page page cities =
               (_ <- print_warning (Cases.shown_id page) (Cases.shown_property page);;
                Ok cities)).
    { intros cities. rewrite (visit_page_text page s cities Htext).
      now rewrite (strip_all_space s Hspace). }
    split.
    + intros cities cities'. rewrite Hvisit.
      destruct (print_warning (Cases.shown_id page) (Cases.shown_property page));
        cbn [bind]; congruence.
    + intros Hid cities. rewrite Hvisit.
      now rewrite (print_warning_printable _ _ Hid).
Qed.

Lemma blank_title_is_left_out :
  Forall (fun v => exists s, v = JStr s /\ s <> [] /\ Spec.trimmed s)
         [JStr (py "Tokyo")] /\
  visit_page (page_with "2" (title_property "   ")) [py "Tokyo"] = Ok [py "Tokyo"].
Proof.
  pose proof (names_are_trimmed_and_nonempty
                cfg (upstream (Ok (answer 200 "OK" (listing tokyo_and_blank)))))
    as [Hnames Hblank].
  split.
  - apply (Hnames [JStr (py "Tokyo")] 200). vm_compute. reflexivity.
  - apply (proj2 (Hblank (page_with "2" (title_property "   ")) (py "   ")
                         ltac:(vm_compute; reflexivity)
                         ltac:(vm_compute; reflexivity))).
    vm_compute. reflexivity.
Defined.

(** C4, as amended.  When the call to the upstream raises an exception of
    the class [requests.exceptions.Timeout], the one the first handler
    catches, the handler answers 504 with a JSON object whose single key
    [error] holds a message that is not empty, and no list of names. *)
Theorem timeout_reply
        (cfg : config) (post : Requests.request -> result response) (e : exc) :
  post (query cfg) = Raise e ->
  exc_class_of e = Timeout ->
  get_cities cfg post =
    Respond (JObj [(py "error", JStr (py "请求 Notion API 超时"))]) 504 /\
  py "请求 Notion API 超时" <> [] /\
  (forall names status, get_cities cfg post <> Respond (JArr names) status).
Proof.
  intros Hpost Ht.
  assert (H : get_cities cfg post =
              Respond (JObj [(py "error", JStr (py "请求 Notion API 超时"))]) 504).
  { unfold get_cities, try_body. rewrite Hpost. cbn [bind].
    unfold is_Timeout. now rewrite Ht. }
  split; [exact H|]. split.
  - vm_compute. discriminate.
  - intros names status. rewrite H. discriminate.
Qed.

Lemma read_timeout_reply :
  get_cities cfg (upstream (Raise read_timeout)) =
    Respond (JObj [(py "error", JStr (py "请求 Notion API 超时"))]) 504.
Proof.
  apply (timeout_reply cfg (upstream (Raise read_timeout)) read_timeout);
    reflexivity.
Defined.

(** C4 as stated fails: a call that times out while the body is downloaded
    raises a [ConnectionError], which the first handler does not catch;
    the second handler answers 500. *)
Lemma body_read_timeout_gives_500 :
  post_of_timeout (query cfg) = Raise body_read_timeout /\
  exc_class_of body_read_timeout = ConnectionError /\
  get_cities cfg post_of_timeout =
    Respond
      (JObj [(py "error",
              JStr (py "请求 Notion API 失败: HTTPSConnectionPool(host='api.notion.com', port=443): Read timed out."))])
      500.
Proof.
  split; [reflexivity|]. split; [reflexivity|]. vm_compute. reflexivity.
Qed.

(** C5, at the input where the code departs from it.  The upstream
    answers 404 with the JSON document [[]]: the second handler calls
    [.get] on a list, the [AttributeError] is not the [ValueError] it
    catches, and the exception leaves [get_cities] where the claim has a
    404 reply with a message that includes the status code. *)
Theorem json_array_error_body_escapes :
  get_cities cfg (upstream (Ok not_found_with_array)) =
    Escapes (Exc AttributeError (py "'list' object has no attribute 'get'") None).
Proof. vm_compute. reflexivity. Qed.

(** C6, as amended.  A response whose status is from 400 to 599, the
    statuses [raise_for_status] rejects, is turned into an [HTTPError]
    that carries it before its body is read: the handler then answers
    with an error object and the status of the upstream, or lets an
    exception out, and never answers with a list of names. *)
Theorem http_error_never_lists
        (cfg : config) (post : Requests.request -> result response) (r : response) :
  post (query cfg) = Ok r ->
  400 <= status_code r < 600 ->
  (exists text, try_body cfg post = Raise (Exc HTTPError text (Some r))) /\
  ((exists message,
       get_cities cfg post = Respond (error_object message) (status_code r)) \/
   (exists e, get_cities cfg post = Escapes e)) /\
  (forall names status, get_cities cfg post <> Respond (JArr names) status).
Proof.
  intros Hpost Hst.
  destruct (http_error_reply cfg post r Hpost Hst) as [text [Hraise [_ Hreply]]].
  assert (Hcases :
            (exists message,
                get_cities cfg post = Respond (error_object message) (status_code r)) \/
            (exists e, get_cities cfg post = Escapes e)).
  { rewrite Hreply. destruct (content r) as [[| | | | | |fields]|msg];
      try (right; eexists; reflexivity); left; eexists; reflexivity. }
  split; [|split; [exact Hcases|]].
  - exists text. unfold try_body. rewrite Hpost. cbn [bind]. now rewrite Hraise.
  - intros names status H.
    destruct Hcases as [[message Hm] | [e He]]; rewrite H in *; discriminate.
Qed.

Lemma not_found_never_lists :
  exists message,
    get_cities cfg
      (upstream (Ok (answer 404 "Not Found" (listing tokyo_and_number)))) =
    Respond (error_object message) 404.
Proof.
  destruct (http_error_never_lists
              cfg (upstream (Ok (answer 404 "Not Found" (listing tokyo_and_number))))
              (answer 404 "Not Found" (listing tokyo_and_number)))
    as [_ [[[message Hm] | [e He]] _]].
  - reflexivity.
  - simpl. lia.
  - exists message. exact Hm.
  - vm_compute in He. discriminate He.
Defined.

(** C6 as stated fails: a 300 is not a 2xx status, [raise_for_status]
    lets it through, and the names of its body are returned with 200. *)
Lemma multiple_choices_lists_names :
  let r := answer 300 "Multiple Choices" (listing tokyo_and_number) in
  ~ (200 <= status_code r < 300) /\
  get_cities cfg (upstream (Ok r)) = Respond (JArr [JStr (py "Tokyo")]) 200.
Proof.
  cbv zeta. split; [simpl; lia|]. vm_compute. reflexivity.
Qed.

(** C7, as amended.  Every exception of the [try] block that is not a
    [RequestException] of [requests] (the timeouts, the HTTP and transport
    errors and the JSON decoding error of [response.json()] are) is
    answered with status 500 and the message made of the fixed prefix
    [服务器内部错误: ] followed by the text of the exception. *)
Theorem unknown_exception_reply
        (cfg : config) (post : Requests.request -> result response) (e : exc) :
  try_body cfg post = Raise e ->
  is_RequestException e = false ->
  get_cities cfg post =
    Respond (error_object (JStr (py "服务器内部错误: " ++ exc_str e))) 500.
Proof. intros Htry He. exact (builtin_reply cfg post e Htry He). Qed.

Lemma key_error_reply :
  get_cities cfg (upstream (Ok (answer 200 "OK" (listing tokyo_and_untyped)))) =
    Respond (error_object (JStr (py "服务器内部错误: " ++ py "'type'"))) 500.
Proof.
  apply (unknown_exception_reply
           cfg (upstream (Ok (answer 200 "OK" (listing tokyo_and_untyped))))
           (Exc KeyError (py "'type'") None));
    vm_compute; reflexivity.
Defined.

(** C7 as stated fails: the message is not the same for all exceptions.
    A property without [type] and a first segment without [plain_text]
    both end in the third handler, with two different messages. *)
Lemma internal_error_message_depends_on_exception :
  get_cities cfg (upstream (Ok (answer 200 "OK" (listing tokyo_and_untyped)))) =
    Respond (error_object (JStr (py "服务器内部错误: 'type'"))) 500 /\
  get_cities cfg (upstream (Ok (answer 200 "OK" (listing tokyo_and_textless)))) =
    Respond (error_object (JStr (py "服务器内部错误: 'plain_text'"))) 500 /\
  py "服务器内部错误: 'type'" <> py "服务器内部错误: 'plain_text'".
Proof.
  split; [vm_compute; reflexivity|]. split; [vm_compute; reflexivity|].
  intros H. vm_compute in H. discriminate H.
Qed.

(** C8.  When the token or the database identifier is absent from the
    environment (that of the process completed by the [.env] file), the
    module exits with code 1 before the route is defined, and the server
    accepts no request. *)
Theorem missing_configuration_aborts (dotenv os_environ : environ) :
  environ_get (py "NOTION_API_TOKEN") (load_dotenv dotenv os_environ) = None \/
  environ_get (py "NOTION_DATABASE_ID") (load_dotenv dotenv os_environ) = None ->
  (exists stdout, main dotenv os_environ = Exit stdout 1) /\
  accepts_requests (main dotenv os_environ) = false.
Proof.
  intros H. unfold main.
  destruct (environ_get (py "NOTION_API_TOKEN") (load_dotenv dotenv os_environ))
    as [[|c t]|] eqn:Et;
    try (split; [eexists; reflexivity | reflexivity]).
  destruct (environ_get (py "NOTION_DATABASE_ID") (load_dotenv dotenv os_environ))
    as [[|d i]|] eqn:Ed;
    try (split; [eexists; reflexivity | reflexivity]).
  destruct H; discriminate.
Qed.

Lemma missing_database_id_aborts :
  accepts_requests (main [] [(py "NOTION_API_TOKEN", py "secret_token")]) = false.
Proof.
  apply (missing_configuration_aborts [] [(py "NOTION_API_TOKEN", py "secret_token")]).
  right. vm_compute. reflexivity.
Defined.

(** C9.  When the upstream answers with a 2xx status and a JSON object
    without [results], the handler returns 200 with the empty array. *)
Theorem missing_results_gives_empty_list
        (cfg : config) (post : Requests.request -> result response)
        (r : response) (fields : list (pystr * json)) :
  post (query cfg) = Ok r ->
  200 <= status_code r < 300 ->
  content r = Json (JObj fields) ->
  Py.lookup (py "results") fields = None ->
  get_cities cfg post = Respond (JArr []) 200.
Proof.
  intros Hpost Hst Hbody Hres. unfold get_cities.
  rewrite (try_body_listing cfg post r fields Hpost) by (lia || assumption).
  now rewrite Hres.
Qed.

Lemma object_without_results :
  get_cities cfg
    (upstream (Ok (answer 200 "OK" (Json (JObj [(py "object", JStr (py "list"))]))))) =
  Respond (JArr []) 200.
Proof.
  apply (missing_results_gives_empty_list
           cfg _ (answer 200 "OK" (Json (JObj [(py "object", JStr (py "list"))])))
           [(py "object", JStr (py "list"))]).
  - reflexivity.
  - simpl. lia.
  - reflexivity.
  - vm_compute. reflexivity.
Defined.

(** C10, as amended.  When the upstream's answer reaches the loop and a
    record of its [results] has a [City Name] property object that is not
    empty and has no [type], or whose kind is [title] or [rich_text] with
    a non-empty segment list whose first segment has no [plain_text], the
    whole request is answered with 500 and an error object: the record is
    not skipped and no name of another record is returned. *)
Theorem malformed_record_fails_request
        (cfg : config) (post : Requests.request -> result response)
        (r : response) (fields : list (pystr * json))
        (pre rest : list json) (page property : json) :
  post (query cfg) = Ok r ->
  status_code r < 400 \/ 600 <= status_code r ->
  content r = Json (JObj fields) ->
  Py.lookup (py "results") fields = Some (JArr (pre ++ page :: rest)) ->
  Spec.record_property page = Some property ->
  Spec.malformed property = true ->
  exists text,
    get_cities cfg post =
      Respond (error_object (JStr (py "服务器内部错误: " ++ text))) 500.
Proof.
  intros Hpost Hst Hbody Hres Hprop Hbad.
  assert (Hraise : exists e, try_body cfg post = Raise e /\ builtin e).
  { rewrite (try_body_listing cfg post r fields Hpost Hst Hbody), Hres.
    unfold collect_cities. cbn [Py.iter bind].
    destruct (visit_pages_raises pre rest page []) as [e He].
    - intros cities'. exact (visit_page_malformed page property cities' Hprop Hbad).
    - exists e. rewrite He. split; [reflexivity|].
      exact (visit_pages_Raise _ _ _ He). }
  destruct Hraise as [e [Htry He]].
  exists (exc_str e). exact (builtin_reply cfg post e Htry He).
Qed.

Lemma textless_segment_fails_request :
  exists text,
    get_cities cfg (upstream (Ok (answer 200 "OK" (listing tokyo_and_textless)))) =
      Respond (error_object (JStr (py "服务器内部错误: " ++ text))) 500.
Proof.
  apply (malformed_record_fails_request
           cfg _ (answer 200 "OK" (listing tokyo_and_textless))
           [ (py "object", JStr (py "list")); (py "results", JArr tokyo_and_textless) ]
           [ page_with "1" (title_property " Tokyo ") ] []
           (page_with "2" textless_property) textless_property).
  - reflexivity.
  - left. simpl. lia.
  - reflexivity.
  - reflexivity.
  - vm_compute. reflexivity.
  - vm_compute. reflexivity.
Defined.

(** C10 as stated fails: the empty object is a property object without
    [type], yet it is falsy, so its record is skipped and the name of the
    other record is returned with 200. *)
Lemma empty_property_is_skipped :
  Spec.record_property (page_with "2" (JObj [])) = Some (JObj []) /\
  Spec.lacks_key (py "type") (JObj []) = true /\
  get_cities cfg (upstream (Ok (answer 200 "OK" (listing tokyo_and_empty)))) =
    Respond (JArr [JStr (py "Tokyo")]) 200.
Proof.
  split; [vm_compute; reflexivity|]. split; vm_compute; reflexivity.
Qed.

(** * Further properties of the module *)

Import MoreExamples.

(** ** Start-up *)

(** X1.  The module is loaded to its end with a configuration exactly when
    both variables are set to non-empty strings, and the configuration
    then holds the two values of the environment: the handler never runs
    with an empty token or an empty database identifier. *)
Theorem serving_configuration (dotenv os_environ : environ) (c : config) :
  (exists origins, main dotenv os_environ = Serving c origins) <->
  (environ_get (py "NOTION_API_TOKEN") (load_dotenv dotenv os_environ)
     = Some (NOTION_API_TOKEN c) /\
   NOTION_API_TOKEN c <> [] /\
   environ_get (py "NOTION_DATABASE_ID") (load_dotenv dotenv os_environ)
     = Some (NOTION_DATABASE_ID c) /\
   NOTION_DATABASE_ID c <> []).
Proof.
  unfold main. split.
  - intros [origins H].
    destruct (environ_get (py "NOTION_API_TOKEN") (load_dotenv dotenv os_environ))
      as [[|a t]|]; try discriminate.
    destruct (environ_get (py "NOTION_DATABASE_ID") (load_dotenv dotenv os_environ))
      as [[|d i]|]; try discriminate.
    injection H as <- _. simpl. repeat split; discriminate.
  - intros [Ht [Hne [Hd Hnd]]]. rewrite Ht, Hd.
    destruct c as [[|a t] [|d i]]; simpl in *; try congruence.
    eexists. reflexivity.
Qed.

Lemma serving_configuration_example :
  exists origins,
    main dotenv_file process_environ =
      Serving (Config (py "secret_token") (py "0123456789abcdef")) origins.
Proof.
  apply (proj2 (serving_configuration
                  dotenv_file process_environ
                  (Config (py "secret_token") (py "0123456789abcdef")))).
  repeat split; try (vm_compute; reflexivity);
    intros H; vm_compute in H; discriminate H.
Defined.

(** X2.  A variable set to the empty string aborts the start-up like a
    missing one, and the token is checked first: when the token is unset
    or empty the line printed names [NOTION_API_TOKEN] whatever the
    database identifier is, and the line names [NOTION_DATABASE_ID] only
    when the token is set. *)
Theorem startup_checks_in_order (dotenv os_environ : environ) :
  (Cases.unset (environ_get (py "NOTION_API_TOKEN")
                            (load_dotenv dotenv os_environ)) = true ->
   main dotenv os_environ =
     Exit [py "错误：未在 .env 文件中设置 NOTION_API_TOKEN"] 1) /\
  (Cases.unset (environ_get (py "NOTION_API_TOKEN")
                            (load_dotenv dotenv os_environ)) = false ->
   Cases.unset (environ_get (py "NOTION_DATABASE_ID")
                            (load_dotenv dotenv os_environ)) = true ->
   main dotenv os_environ =
     Exit [py "错误：未在 .env 文件中设置 NOTION_DATABASE_ID"] 1).
Proof.
  unfold main.
  destruct (environ_get (py "NOTION_API_TOKEN") (load_dotenv dotenv os_environ))
    as [[|a t]|];
    destruct (environ_get (py "NOTION_DATABASE_ID") (load_dotenv dotenv os_environ))
      as [[|d i]|];
    cbn [Cases.unset]; split; intros H1; try discriminate H1;
    try (intros H2; try discriminate H2); reflexivity.
Qed.

Lemma empty_token_aborts :
  main [] [ (py "NOTION_API_TOKEN", []); (py "NOTION_DATABASE_ID", []) ] =
    Exit [py "错误：未在 .env 文件中设置 NOTION_API_TOKEN"] 1.
Proof.
  apply (proj1 (startup_checks_in_order
                  [] [ (py "NOTION_API_TOKEN", []); (py "NOTION_DATABASE_ID", []) ])).
  vm_compute. reflexivity.
Defined.

(** X3.  When the module serves, the origin of the local development
    server is always allowed, the origin [https://] followed by
    [VERCEL_URL] is allowed when that variable is set to a non-empty
    string, and no other origin is ever allowed. *)
Theorem allowed_origins_are_known
        (dotenv os_environ : environ) (c : config) (origins : list pystr) :
  main dotenv os_environ = Serving c origins ->
  In (py "http://localhost:5173") origins /\
  (forall v,
      environ_get (py "VERCEL_URL") (load_dotenv dotenv os_environ) = Some v ->
      v <> [] ->
      In (py "https://" ++ v) origins) /\
  (forall origin,
      In origin origins ->
      origin = py "http://localhost:5173" \/
      exists v,
        environ_get (py "VERCEL_URL") (load_dotenv dotenv os_environ) = Some v /\
        v <> [] /\ origin = py "https://" ++ v).
Proof.
  unfold main. intros H.
  destruct (environ_get (py "NOTION_API_TOKEN") (load_dotenv dotenv os_environ))
    as [[|a t]|]; try discriminate.
  destruct (environ_get (py "NOTION_DATABASE_ID") (load_dotenv dotenv os_environ))
    as [[|d i]|]; try discriminate.
  injection H as _ <-.
  destruct (environ_get (py "VERCEL_URL") (load_dotenv dotenv os_environ))
    as [[|x v]|] eqn:Ev.
  - split; [now left|]. split.
    + intros v H Hne. injection H as <-. now elim Hne.
    + intros origin [<-|[]]. now left.
  - split; [right; now left|]. split.
    + intros w H _. injection H as <-. now left.
    + intros origin [<-|[<-|[]]]; [right | now left].
      exists (x :: v). repeat split. discriminate.
  - split; [now left|]. split.
    + intros v H. discriminate.
    + intros origin [<-|[]]. now left.
Qed.

Lemma vercel_origin_is_allowed :
  In (py "https://" ++ py "amap-app.vercel.app")
     [ py "https://amap-app.vercel.app"; py "http://localhost:5173" ].
Proof.
  apply (proj1 (proj2 (allowed_origins_are_known
                         dotenv_file process_environ
                         (Config (py "secret_token") (py "0123456789abcdef"))
                         [ py "https://amap-app.vercel.app"; py "http://localhost:5173" ]
                         ltac:(vm_compute; reflexivity)))
               (py "amap-app.vercel.app")).
  - vm_compute. reflexivity.
  - intros H. vm_compute in H. discriminate H.
Defined.

Lemma environ_get_load_dotenv (dotenv os_environ : environ) (name : pystr) :
  environ_get name (load_dotenv dotenv os_environ) =
    match environ_get name os_environ with
    | Some v => Some v
    | None => environ_get name dotenv
    end.
Proof.
  unfold load_dotenv.
  induction os_environ as [|[k w] env IH]; simpl; [reflexivity|].
  now destruct (PyStr.eqb k name).
Qed.

(** X4.  The process environment takes precedence over the [.env] file:
    when it sets the token and the database identifier to non-empty
    strings, the module serves with these two values whatever the file
    holds; and for a variable the environment does not set, the value of
    the file is the one read. *)
Theorem process_environment_overrides_dotenv
        (dotenv os_environ : environ) (token database_id : pystr) :
  environ_get (py "NOTION_API_TOKEN") os_environ = Some token ->
  token <> [] ->
  environ_get (py "NOTION_DATABASE_ID") os_environ = Some database_id ->
  database_id <> [] ->
  (exists origins,
      main dotenv os_environ = Serving (Config token database_id) origins) /\
  (forall name,
      environ_get name os_environ = None ->
      environ_get name (load_dotenv dotenv os_environ) = environ_get name dotenv).
Proof.
  intros Ht Hne Hd Hnd. split.
  - unfold main. rewrite !environ_get_load_dotenv, Ht, Hd.
    destruct token as [|a t]; [now elim Hne|].
    destruct database_id as [|d i]; [now elim Hnd|].
    eexists. reflexivity.
  - intros name Hnone. now rewrite environ_get_load_dotenv, Hnone.
Qed.

Lemma environment_token_overrides_dotenv :
  exists origins,
    main dotenv_file
         [ (py "NOTION_API_TOKEN", py "secret_token");
           (py "NOTION_DATABASE_ID", py "fedcba9876543210") ] =
      Serving (Config (py "secret_token") (py "fedcba9876543210")) origins.
Proof.
  apply (process_environment_overrides_dotenv
           dotenv_file
           [ (py "NOTION_API_TOKEN", py "secret_token");
             (py "NOTION_DATABASE_ID", py "fedcba9876543210") ]
           (py "secret_token") (py "fedcba9876543210")).
  - vm_compute. reflexivity.
  - intros H. vm_compute in H. discriminate H.
  - vm_compute. reflexivity.
  - intros H. vm_compute in H. discriminate H.
Defined.

(** ** The request sent to the upstream *)

(** X5.  The request names the configuration it was built from: two
    configurations give the same request only when they have the same
    token and the same database identifier. *)
Theorem query_determines_configuration (c1 c2 : config) :
  query c1 = query c2 -> c1 = c2.
Proof.
  destruct c1 as [t1 d1], c2 as [t2 d2].
  unfold query, notion_api_url, headers. cbn [NOTION_API_TOKEN NOTION_DATABASE_ID].
  intros H. injection H as Hurl Hauth.
  apply app_inv_tail in Hurl. now subst.
Qed.

Lemma query_determines_configuration_example :
  cfg = Config (py "secret_token") (py "0123456789abcdef").
Proof.
  apply (query_determines_configuration
           cfg (Config (py "secret_token") (py "0123456789abcdef"))).
  reflexivity.
Defined.

(** ** The second handler *)

Section SecondHandler.

Variable cfg : config.
Variable post : Requests.request -> result response.

Lemma second_handler (e : exc) :
  try_body cfg post = Raise e ->
  is_RequestException e = true ->
  is_Timeout e = false ->
  get_cities cfg post =
    match request_error_message e with
    | Ok error_message => Respond (error_object error_message) (status_of e)
    | Raise e' => Escapes e'
    end.
Proof.
  intros Htry Hreq Htime. unfold get_cities. now rewrite Htry, Htime, Hreq.
Qed.

End SecondHandler.

(** X6.  An error of [requests] other than a timeout that carries no
    response (the connection failed, for instance) is answered with 500
    and the message [请求 Notion API 失败: ] followed by the text of the
    exception. *)
Theorem transport_error_reply
        (cfg : config) (post : Requests.request -> result response) (e : exc) :
  try_body cfg post = Raise e ->
  is_RequestException e = true ->
  is_Timeout e = false ->
  exc_response e = None ->
  get_cities cfg post =
    Respond (error_object (JStr (py "请求 Notion API 失败: " ++ exc_str e))) 500.
Proof.
  intros Htry Hreq Htime Hnone.
  rewrite (second_handler cfg post e Htry Hreq Htime).
  unfold request_error_message, status_of. now rewrite Hnone.
Qed.

Lemma connection_error_reply :
  get_cities cfg (upstream (Raise connection_error)) =
    Respond (error_object
               (JStr (py "请求 Notion API 失败: " ++ exc_str connection_error))) 500.
Proof.
  apply (transport_error_reply cfg (upstream (Raise connection_error)) connection_error);
    reflexivity.
Defined.

(** X7.  When an error of [requests] other than a timeout carries a
    response whose body is a JSON object, the reply has the status of
    that response, and its message is the value under [message] of the
    body, whatever that value is, or, without such a key, [请求 Notion API
    失败: ] followed by the text of the exception. *)
Theorem error_body_message_is_surfaced
        (cfg : config) (post : Requests.request -> result response)
        (e : exc) (r : response) (fields : list (pystr * json)) :
  try_body cfg post = Raise e ->
  is_RequestException e = true ->
  is_Timeout e = false ->
  exc_response e = Some r ->
  content r = Json (JObj fields) ->
  get_cities cfg post =
    Respond (error_object
               match Py.lookup (py "message") fields with
               | Some message => message
               | None => JStr (py "请求 Notion API 失败: " ++ exc_str e)
               end)
            (status_code r).
Proof.
  intros Htry Hreq Htime Hresp Hbody.
  rewrite (second_handler cfg post e Htry Hreq Htime).
  unfold request_error_message, status_of, Requests.json_of.
  rewrite Hresp, Hbody. cbn [Py.get].
  now destruct (Py.lookup (py "message") fields).
Qed.

Lemma unauthorized_reply :
  get_cities cfg (upstream (Ok unauthorized)) =
    Respond (error_object (JStr (py "API token is invalid."))) 401.
Proof.
  apply (error_body_message_is_surfaced
           cfg (upstream (Ok unauthorized))
           (Exc HTTPError
                (py "401 Client Error: Unauthorized for url: https://api.notion.com/v1/databases/0123456789abcdef/query")
                (Some unauthorized))
           unauthorized
           [ (py "object", JStr (py "error"));
             (py "status", JInt 401);
             (py "code", JStr (py "unauthorized"));
             (py "message", JStr (py "API token is invalid.")) ]);
    vm_compute; reflexivity.
Defined.

(** X8.  When the body of the attached response is not JSON, the reply
    has the status of that response and the message is [请求 Notion API
    失败: ], the text of the exception, and the status code between
    [ (状态码: ] and [)]. *)
Theorem undecodable_error_body_reply
        (cfg : config) (post : Requests.request -> result response)
        (e : exc) (r : response) (decoder_message : pystr) :
  try_body cfg post = Raise e ->
  is_RequestException e = true ->
  is_Timeout e = false ->
  exc_response e = Some r ->
  content r = NotJson decoder_message ->
  get_cities cfg post =
    Respond (error_object
               (JStr ((py "请求 Notion API 失败: " ++ exc_str e)
                        ++ py " (状态码: " ++ str_int (status_code r) ++ py ")")))
            (status_code r).
Proof.
  intros Htry Hreq Htime Hresp Hbody.
  rewrite (second_handler cfg post e Htry Hreq Htime).
  unfold request_error_message, status_of, Requests.json_of.
  now rewrite Hresp, Hbody.
Qed.

Lemma bad_gateway_reply :
  get_cities cfg (upstream (Ok bad_gateway)) =
    Respond (error_object
               (JStr (py "请求 Notion API 失败: 502 Server Error: Bad Gateway for url: https://api.notion.com/v1/databases/0123456789abcdef/query (状态码: 502)")))
            502.
Proof.
  apply (undecodable_error_body_reply
           cfg (upstream (Ok bad_gateway))
           (Exc HTTPError
                (py "502 Server Error: Bad Gateway for url: https://api.notion.com/v1/databases/0123456789abcdef/query")
                (Some bad_gateway))
           bad_gateway
           (py "Expecting value: line 1 column 1 (char 0)"));
    vm_compute; reflexivity.
Defined.

(** X9.  For a response with a status from 400 to 599 the reply has the
    status of the upstream.  When the body is a JSON object with a
    [message], the message of the reply is that value; when the body is a
    JSON object without [message], or is not JSON, the message is a text
    in which the status code appears. *)
Theorem http_error_reports_status
        (cfg : config) (post : Requests.request -> result response) (r : response) :
  post (query cfg) = Ok r ->
  400 <= status_code r < 600 ->
  (forall fields message,
      content r = Json (JObj fields) ->
      Py.lookup (py "message") fields = Some message ->
      get_cities cfg post = Respond (JObj [(py "error", message)]) (status_code r)) /\
  (forall fields,
      content r = Json (JObj fields) ->
      Py.lookup (py "message") fields = None ->
      exists text,
        get_cities cfg post =
          Respond (JObj [(py "error", JStr text)]) (status_code r) /\
        Spec.includes (str_int (status_code r)) text) /\
  (forall decoder_message,
      content r = NotJson decoder_message ->
      exists text,
        get_cities cfg post =
          Respond (JObj [(py "error", JStr text)]) (status_code r) /\
        Spec.includes (str_int (status_code r)) text).
Proof.
  intros Hpost Hst.
  destruct (http_error_reply cfg post r Hpost Hst) as [text [_ [[a [b Hinc]] Hreply]]].
  rewrite Hreply. split; [|split].
  - intros fields message Hb Hm. now rewrite Hb, Hm.
  - intros fields Hb Hm. rewrite Hb, Hm.
    eexists. split; [reflexivity|].
    exists (py "请求 Notion API 失败: " ++ a), b. rewrite Hinc.
    now rewrite <- !app_assoc.
  - intros decoder_message Hb. rewrite Hb.
    eexists. split; [reflexivity|].
    exists (py "请求 Notion API 失败: " ++ a),
           (b ++ py " (状态码: " ++ str_int (status_code r) ++ py ")").
    rewrite Hinc. now rewrite <- !app_assoc.
Qed.

Lemma rate_limited_reply :
  exists text,
    get_cities cfg (upstream (Ok rate_limited)) =
      Respond (JObj [(py "error", JStr text)]) 429 /\
    Spec.includes (py "429") text.
Proof.
  apply (proj1 (proj2 (http_error_reports_status
                         cfg (upstream (Ok rate_limited)) rate_limited
                         ltac:(reflexivity) ltac:(simpl; lia)))
               [ (py "object", JStr (py "error")) ]).
  - reflexivity.
  - vm_compute. reflexivity.
Defined.

(** ** Bodies that are not what the loop expects *)



(** X11.  A response that passes [raise_for_status] with a JSON body that
    is not an object (an array, a string, a number, [true], [null]) is
    answered with 500: [data.get] raises an [AttributeError] that names
    the type of the body, and the third handler reports it. *)
Theorem non_object_body_reply
        (cfg : config) (post : Requests.request -> result response)
        (r : response) (data : json) :
  post (query cfg) = Ok r ->
  status_code r < 400 \/ 600 <= status_code r ->
  content r = Json data ->
  Cases.is_object data = false ->
  get_cities cfg post =
    Respond (error_object
               (JStr (py "服务器内部错误: '" ++ Py.type_name data
                         ++ py "' object has no attribute 'get'")))
            500.
Proof.
  intros Hpost Hst Hbody Hobj.
  rewrite (builtin_reply cfg post (Py.no_attribute data (py "get"))).
  - reflexivity.
  - unfold try_body. rewrite Hpost. cbn [bind].
    rewrite (raise_for_status_passes r Hst). cbn [bind].
    unfold Requests.json_of. rewrite Hbody. cbn [bind].
    destruct data; try reflexivity. discriminate.
  - reflexivity.
Qed.

Lemma array_body_reply :
  get_cities cfg (upstream (Ok (answer 200 "OK" (Json (JArr tokyo_only))))) =
    Respond (error_object
               (JStr (py "服务器内部错误: '" ++ py "list"
                         ++ py "' object has no attribute 'get'")))
            500.
Proof.
  apply (non_object_body_reply
           cfg _ (answer 200 "OK" (Json (JArr tokyo_only))) (JArr tokyo_only)).
  - reflexivity.
  - left. simpl. lia.
  - reflexivity.
  - reflexivity.
Defined.

(** X12.  When [results] is present but is [null], a boolean or a number,
    the default of [data.get] does not apply and the [for] raises a
    [TypeError]: the request is answered with 500, where a body without
    [results] gives the empty list. *)
Theorem results_not_iterable_reply
        (cfg : config) (post : Requests.request -> result response)
        (r : response) (fields : list (pystr * json)) (results : json) :
  post (query cfg) = Ok r ->
  status_code r < 400 \/ 600 <= status_code r ->
  content r = Json (JObj fields) ->
  Py.lookup (py "results") fields = Some results ->
  Cases.not_iterable results = true ->
  get_cities cfg post =
    Respond (error_object
               (JStr (py "服务器内部错误: '" ++ Py.type_name results
                         ++ py "' object is not iterable")))
            500.
Proof.
  intros Hpost Hst Hbody Hres Hnot.
  rewrite (builtin_reply cfg post (Py.not_iterable results)).
  - reflexivity.
  - rewrite (try_body_listing cfg post r fields Hpost Hst Hbody), Hres.
    unfold collect_cities. destruct results; try discriminate; reflexivity.
  - reflexivity.
Qed.

Lemma null_results_reply :
  get_cities cfg
    (upstream (Ok (answer 200 "OK" (Json (JObj [(py "results", JNull)]))))) =
    Respond (error_object
               (JStr (py "服务器内部错误: '" ++ py "NoneType"
                         ++ py "' object is not iterable")))
            500.
Proof.
  apply (results_not_iterable_reply
           cfg _ (answer 200 "OK" (Json (JObj [(py "results", JNull)])))
           [(py "results", JNull)] JNull).
  - reflexivity.
  - left. simpl. lia.
  - reflexivity.
  - vm_compute. reflexivity.
  - reflexivity.
Defined.

(** X13.  Every reply of the handler is either the status 200 with an
    array of strings, or an error object, an object with the single key
    [error], whose status is 504, 500 or the status of the response
    attached to the exception. *)
Theorem reply_shape
        (cfg : config) (post : Requests.request -> result response)
        (payload : json) (status : Z) :
  get_cities cfg post = Respond payload status ->
  (status = 200 /\ exists names, payload = JArr (map JStr names)) \/
  (exists message,
      payload = JObj [(py "error", message)] /\
      (status = 504 \/ status = 500 \/
       exists e r,
         try_body cfg post = Raise e /\ exc_response e = Some r /\
         status = status_code r)).
Proof.
  unfold get_cities. intros H.
  destruct (try_body cfg post) as [cities|e] eqn:Htry.
  - injection H as <- <-. left. split; [reflexivity|].
    unfold try_body in Htry.
    apply bind_Ok in Htry as [response [_ Htry]].
    apply bind_Ok in Htry as [_ [_ Htry]].
    apply bind_Ok in Htry as [data [_ Htry]].
    apply bind_Ok in Htry as [results [_ Htry]].
    apply bind_Ok in Htry as [names [_ Htry]].
    injection Htry as <-. now exists names.
  - right. destruct (is_Timeout e).
    + injection H as <- <-. eexists. split; [reflexivity|]. now left.
    + destruct (is_RequestException e).
      * destruct (request_error_message e) as [message|e']; [|discriminate].
        injection H as <- <-. exists message. split; [reflexivity|].
        unfold status_of. destruct (exc_response e) as [r|] eqn:Er.
        -- right. right. now exists e, r.
        -- right. now left.
      * injection H as <- <-. eexists. split; [reflexivity|]. right. now left.
Qed.

Lemma reply_shape_example :
  (401 = 200 /\ exists names, error_object (JStr (py "API token is invalid."))
                              = JArr (map JStr names)) \/
  (exists message,
      error_object (JStr (py "API token is invalid.")) = JObj [(py "error", message)] /\
      (401 = 504 \/ 401 = 500 \/
       exists e r,
         try_body cfg (upstream (Ok unauthorized)) = Raise e /\
         exc_response e = Some r /\ 401 = status_code r)).
Proof.
  apply (reply_shape cfg (upstream (Ok unauthorized))).
  vm_compute. reflexivity.
Defined.

(** ** Records *)

Lemma visit_page_raises_anywhere (page : json) (cities : list pystr) (e : exc) :
  visit_page page [] = Raise e -> visit_page page cities = Raise e.
Proof. intros H. rewrite visit_page_frame, H. reflexivity. Qed.

Lemma visit_pages_frame (pages : list json) (cities : list pystr) :
  visit_pages pages cities =
  (names <- visit_pages pages [];; Ok (cities ++ names)).
Proof.
  revert cities. induction pages as [|page pages IH]; intros cities; simpl.
  - now rewrite app_nil_r.
  - rewrite (visit_page_frame page cities).
    destruct (visit_page page []) as [names|e]; cbn [bind]; [|reflexivity].
    cbn [app]. rewrite (IH (cities ++ names)), (IH names).
    destruct (visit_pages pages []) as [more|e]; cbn [bind]; [|reflexivity].
    now rewrite app_assoc.
Qed.

Lemma kind_with_payload_eval (fields : list (pystr * json)) (kind other : pystr)
      (payload : json) :
  Py.lookup (py "type") fields = Some (JStr kind) ->
  Py.lookup kind fields = Some payload ->
  kind_with_payload (JObj fields) other =
    if PyStr.eqb kind other then Ok (Py.truthy payload) else Ok false.
Proof.
  intros Ht Hp. unfold kind_with_payload, Py.getitem. rewrite Ht. cbn [bind Py.eq_str].
  destruct (PyStr.eqb kind other) eqn:E; [|reflexivity].
  apply eqb_eq in E. subst other. now rewrite Hp.
Qed.

Lemma text_kind_cases (kind : pystr) :
  Cases.text_kind kind = true ->
  kind = py "title" \/
  (PyStr.eqb kind (py "title") = false /\ kind = py "rich_text").
Proof.
  unfold Cases.text_kind. destruct (PyStr.eqb kind (py "title")) eqn:E1.
  - intros _. left. now apply eqb_eq.
  - simpl. intros E2. right. split; [reflexivity | now apply eqb_eq].
Qed.

(** X14.  The names are all or nothing, and the first record that raises
    decides the reply: when the records before it are read without an
    exception, the request is answered with 500 and the text of that
    exception, whatever names were collected and whatever follows. *)
Theorem first_failing_record_decides
        (cfg : config) (post : Requests.request -> result response)
        (r : response) (fields : list (pystr * json))
        (pre rest : list json) (page : json) (e : exc) :
  post (query cfg) = Ok r ->
  status_code r < 400 \/ 600 <= status_code r ->
  content r = Json (JObj fields) ->
  Py.lookup (py "results") fields = Some (JArr (pre ++ page :: rest)) ->
  forallb extracts pre = true ->
  visit_page page [] = Raise e ->
  get_cities cfg post =
    Respond (error_object (JStr (py "服务器内部错误: " ++ exc_str e))) 500.
Proof.
  intros Hpost Hst Hbody Hres Hpre Hpage.
  assert (Htry : try_body cfg post = Raise e).
  { rewrite (try_body_listing cfg post r fields Hpost Hst Hbody), Hres.
    unfold collect_cities. cbn [Py.iter bind].
    rewrite visit_pages_app, (visit_pages_extracts pre [] Hpre). cbn [bind].
    simpl. now rewrite (visit_page_raises_anywhere page _ e Hpage). }
  apply (builtin_reply cfg post e Htry).
  exact (visit_page_Raise page [] e Hpage).
Qed.

Lemma untyped_record_decides :
  get_cities cfg (upstream (Ok (answer 200 "OK" (listing tokyo_and_untyped)))) =
    Respond (error_object
               (JStr (py "服务器内部错误: "
                         ++ exc_str (Exc KeyError (py "'type'") None)))) 500.
Proof.
  apply (first_failing_record_decides
           cfg _ (answer 200 "OK" (listing tokyo_and_untyped))
           [ (py "object", JStr (py "list")); (py "results", JArr tokyo_and_untyped) ]
           [ page_with "1" (title_property " Tokyo ") ] []
           (page_with "2" untyped_property)).
  - reflexivity.
  - left. simpl. lia.
  - reflexivity.
  - reflexivity.
  - vm_compute. reflexivity.
  - vm_compute. reflexivity.
Defined.




Lemma first_segment_value
      (fields : list (pystr * json)) (kind : pystr)
      (segment : json) (others : list json) :
  Py.lookup (py "type") fields = Some (JStr kind) ->
  Cases.text_kind kind = true ->
  Py.lookup kind fields = Some (JArr (segment :: others)) ->
  city_name_of (JObj fields) = Py.getitem segment (py "plain_text").
Proof.
  intros Ht Hk Hp. unfold city_name_of.
  rewrite (lookup_Some_nonempty _ _ _ Ht).
  assert (Hfirst : first_plain_text (JObj fields) kind =
                   Py.getitem segment (py "plain_text")).
  { unfold first_plain_text, Py.getitem at 1. now rewrite Hp. }
  rewrite (kind_with_payload_eval fields kind (py "title") _ Ht Hp).
  destruct (text_kind_cases kind Hk) as [-> | [E ->]].
  - rewrite eqb_refl. cbn [Py.truthy bind]. exact Hfirst.
  - rewrite E. cbn [bind].
    rewrite (kind_with_payload_eval fields _ (py "rich_text") _ Ht Hp).
    rewrite eqb_refl. cbn [Py.truthy bind]. exact Hfirst.
Qed.

(** X16.  Of a [title] or [rich_text] property with several segments only
    the first is read: the value extracted is the [plain_text] of the
    first segment, and the segments after it change nothing. *)
Theorem only_first_segment_is_read
        (fields : list (pystr * json)) (kind : pystr)
        (segment : json) (others others' : list json) :
  Py.lookup (py "type") fields = Some (JStr kind) ->
  Cases.text_kind kind = true ->
  Py.lookup kind fields = Some (JArr (segment :: others)) ->
  city_name_of (JObj fields) = Py.getitem segment (py "plain_text") /\
  (forall fields',
      Py.lookup (py "type") fields' = Some (JStr kind) ->
      Py.lookup kind fields' = Some (JArr (segment :: others')) ->
      city_name_of (JObj fields') = city_name_of (JObj fields)).
Proof.
  intros Ht Hk Hp. split.
  - exact (first_segment_value fields kind segment others Ht Hk Hp).
  - intros fields' Ht' Hp'.
    rewrite (first_segment_value fields kind segment others Ht Hk Hp).
    exact (first_segment_value fields' kind segment others' Ht' Hk Hp').
Qed.

Lemma second_segment_is_not_read :
  city_name_of two_segment_title = Ok (JStr (py "New ")).
Proof.
  apply (proj1 (only_first_segment_is_read
                  [ (py "type", JStr (py "title"));
                    (py "title", JArr [ JObj [(py "plain_text", JStr (py "New "))];
                                        JObj [(py "plain_text", JStr (py "York"))] ]) ]
                  (py "title")
                  (JObj [(py "plain_text", JStr (py "New "))])
                  [ JObj [(py "plain_text", JStr (py "York"))] ] []
                  ltac:(vm_compute; reflexivity)
                  ltac:(vm_compute; reflexivity)
                  ltac:(vm_compute; reflexivity))).
Defined.



(** X18.  A property of kind [title] or [rich_text] that lacks the key its
    kind names makes the visit of its record raise the [KeyError] of that
    key. *)
Theorem missing_payload_raises
        (page : json) (fields : list (pystr * json)) (kind : pystr)
        (cities : list pystr) :
  Spec.record_property page = Some (JObj fields) ->
  Py.lookup (py "type") fields = Some (JStr kind) ->
  Cases.text_kind kind = true ->
  Py.lookup kind fields = None ->
  visit_page page cities = Raise (Exc KeyError (Py.quote :: kind ++ [Py.quote]) None).
Proof.
  intros Hprop Ht Hk Hp.
  rewrite (visit_page_property page (JObj fields) cities Hprop).
  unfold city_name_of. rewrite (lookup_Some_nonempty _ _ _ Ht).
  unfold kind_with_payload, Py.getitem. rewrite Ht. cbn [bind Py.eq_str].
  destruct (text_kind_cases kind Hk) as [-> | [E ->]].
  - rewrite eqb_refl, Hp. reflexivity.
  - rewrite E. cbn [bind]. rewrite eqb_refl, Hp. reflexivity.
Qed.

Lemma title_without_payload_raises :
  visit_page (page_with "5" title_without_payload) [py "Tokyo"] =
    Raise (Exc KeyError (Py.quote :: py "title" ++ [Py.quote]) None).
Proof.
  apply (missing_payload_raises
           (page_with "5" title_without_payload)
           [ (py "type", JStr (py "title")) ] (py "title") [py "Tokyo"]);
    vm_compute; reflexivity.
Defined.



(** X20.  The records are read independently of one another: the names of
    two lists of records put end to end are the names of the first
    followed by the names of the second, and the whole raises when one of
    the two does. *)
Theorem collect_cities_app (front back : list json) :
  collect_cities (JArr (front ++ back)) =
  (names <- collect_cities (JArr front);;
   names' <- collect_cities (JArr back);;
   Ok (names ++ names')).
Proof.
  unfold collect_cities. cbn [Py.iter bind].
  rewrite visit_pages_app.
  destruct (visit_pages front []) as [names|e]; cbn [bind]; [|reflexivity].
  apply visit_pages_frame.
Qed.

Lemma strip_prefix (s : pystr) :
  exists before, s = before ++ lstrip s /\ forallb isspace before = true.
Proof.
  induction s as [|c s [p [IH Hp]]]; simpl.
  - exists []. now split.
  - destruct (isspace c) eqn:E.
    + exists (c :: p). simpl. rewrite E, Hp. split; [now f_equal | reflexivity].
    + exists []. now split.
Qed.

Lemma forallb_rev (f : codepoint -> bool) (s : pystr) :
  forallb f s = true -> forallb f (rev s) = true.
Proof.
  rewrite !forallb_forall. intros H c Hc. apply H. now apply in_rev.
Qed.

Lemma strip_decompose (s : pystr) :
  exists before after,
    s = before ++ PyStr.strip s ++ after /\
    forallb isspace before = true /\ forallb isspace after = true.
Proof.
  destruct (strip_prefix s) as [before [Hs Hb]].
  destruct (strip_prefix (rev (lstrip s))) as [p [Hr Hp]].
  exists before, (rev p). split; [|split; [exact Hb | now apply forallb_rev]].
  unfold PyStr.strip, rstrip. rewrite <- rev_app_distr, <- Hr, rev_involutive.
  exact Hs.
Qed.

(** X21.  The name returned for a valid record is the text of its first
    segment with white space taken away at the two ends only: the text is
    the name between two runs of white space, so white space inside the
    name is kept. *)
Theorem name_is_text_without_outer_space (page : json) (cities : list pystr) :
  Spec.valid_record page = true ->
  exists text before after,
    Spec.record_text page = Some text /\
    text = before ++ Spec.record_name page ++ after /\
    forallb isspace before = true /\
    forallb isspace after = true /\
    visit_page page cities = Ok (cities ++ [Spec.record_name page]).
Proof.
  unfold Spec.valid_record, Spec.record_name.
  destruct (Spec.record_text page) as [text|] eqn:Htext; [|discriminate].
  intros Hvalid.
  destruct (strip_decompose text) as [before [after [Hd [Hb Ha]]]].
  exists text, before, after. repeat split; try assumption.
  rewrite (visit_page_text page text cities Htext).
  now destruct (PyStr.strip text).
Qed.

Lemma tokyo_without_outer_space :
  exists text before after,
    Spec.record_text (page_with "1" (title_property " Tokyo ")) = Some text /\
    text = before ++ Spec.record_name (page_with "1" (title_property " Tokyo ")) ++ after /\
    forallb isspace before = true /\
    forallb isspace after = true /\
    visit_page (page_with "1" (title_property " Tokyo ")) [] =
      Ok ([] ++ [Spec.record_name (page_with "1" (title_property " Tokyo "))]).
Proof.
  apply (name_is_text_without_outer_space (page_with "1" (title_property " Tokyo ")) []).
  vm_compute. reflexivity.
Defined.

(** ** What is printed *)

(** The printing handler gives the reply of [get_cities]. *)
Lemma stdout_visit_page_result (page : json) (cities : list pystr) :
  snd (Stdout.visit_page page cities) = visit_page page cities.
Proof.
  unfold Stdout.visit_page, visit_page.
  destruct (Py.get page (py "properties") (JObj [])) as [properties|e];
    [cbn [bind]|reflexivity].
  destruct (Py.get properties NOTION_CITY_PROPERTY_NAME JNull) as [cp|e];
    [cbn [bind]|reflexivity].
  destruct (city_name_of cp) as [city_name|e]; [cbn [bind]|reflexivity].
  match goal with
  | |- context [bind ?r _] => destruct r as [[|]|e]; cbn [bind]; try reflexivity
  end.
  destruct (Py.get page (py "id") (JStr (py "未知ID"))) as [page_id|e];
    cbn [bind]; [|reflexivity].
  destruct (print_warning page_id cp) as [[]|e]; reflexivity.
Qed.

Lemma stdout_visit_pages_result (pages : list json) (cities : list pystr) :
  snd (Stdout.visit_pages pages cities) = visit_pages pages cities.
Proof.
  revert cities. induction pages as [|page pages IH]; intros cities; simpl;
    [reflexivity|].
  rewrite <- (stdout_visit_page_result page cities).
  destruct (Stdout.visit_page page cities) as [out [cities'|e]]; cbn [snd bind];
    [|reflexivity].
  rewrite <- (IH cities').
  now destruct (Stdout.visit_pages pages cities').
Qed.

Lemma stdout_get_cities_reply
      (cfg : config) (post : Requests.request -> result response) :
  snd (Stdout.get_cities cfg post) = get_cities cfg post.
Proof.
  unfold Stdout.get_cities, get_cities, try_body, Stdout.handle, collect_cities.
  destruct (post (query cfg)) as [r|e]; cbn [bind].
  2:{ destruct (is_Timeout e); [reflexivity|].
      destruct (is_RequestException e); reflexivity. }
  destruct (Requests.raise_for_status r) as [[]|e]; cbn [bind].
  2:{ destruct (is_Timeout e); [reflexivity|].
      destruct (is_RequestException e); reflexivity. }
  destruct (Requests.json_of r) as [data|e]; cbn [bind].
  2:{ destruct (is_Timeout e); [reflexivity|].
      destruct (is_RequestException e); reflexivity. }
  destruct (Py.get data (py "results") (JArr [])) as [results|e]; cbn [bind].
  2:{ destruct (is_Timeout e); [reflexivity|].
      destruct (is_RequestException e); reflexivity. }
  destruct (Py.iter results) as [pages|e]; cbn [bind].
  2:{ destruct (is_Timeout e); [reflexivity|].
      destruct (is_RequestException e); reflexivity. }
  rewrite <- (stdout_visit_pages_result pages []).
  destruct (Stdout.visit_pages pages []) as [warnings [cities|e]]; cbn [snd bind].
  - reflexivity.
  - destruct (is_Timeout e); [reflexivity|].
    destruct (is_RequestException e); reflexivity.
Qed.

(** What one record prints when it is read without an exception. *)
Lemma stdout_visit_page_Ok (page : json) (cities cities' : list pystr)
      (out : list Stdout.line) :
  Stdout.visit_page page cities = (out, Ok cities') ->
  out = if Spec.valid_record page then [] else [Cases.warning_of page].
Proof.
  intros H.
  assert (Hres : visit_page page cities = Ok cities').
  { rewrite <- stdout_visit_page_result, H. reflexivity. }
  apply visit_page_Ok in Hres. unfold names_of in Hres.
  revert H. unfold Stdout.visit_page.
  destruct (Py.get page (py "properties") (JObj [])) as [properties|e] eqn:H1;
    [cbn [bind]|discriminate].
  destruct (Py.get properties NOTION_CITY_PROPERTY_NAME JNull) as [cp|e] eqn:H2;
    [cbn [bind]|discriminate].
  destruct (city_name_of cp) as [city_name|e]; [cbn [bind]|discriminate].
  match goal with
  | |- context [bind ?r _] => destruct r as [[|]|e]; cbn [bind]; try discriminate
  end.
  - intros H. destruct (Py.strip city_name) as [stripped|e]; cbn [bind] in H;
      [|discriminate].
    injection H as <- H. rewrite Hres in H.
    destruct (Spec.valid_record page); [reflexivity|].
    rewrite app_nil_r in H.
    assert (Hlen : List.length (cities ++ [stripped]) = List.length cities)
      by now rewrite H.
    rewrite length_app in Hlen. simpl in Hlen. lia.
  - apply get_Ok in H1 as [m [-> H1]].
    apply get_Ok in H2 as [props [-> H2]].
    cbn [Py.get]. intros H.
    assert (Hboth : out = [Stdout.Warning (Cases.shown_id (JObj m)) cp] /\
                    cities' = cities).
    { unfold Cases.shown_id.
      destruct (Py.lookup (py "id") m) as [id|];
        match type of H with
        | context [print_warning ?i ?c] => destruct (print_warning i c) as [[]|e]
        end; try discriminate; injection H as <- <-; now split. }
    destruct Hboth as [Hout Hsame].
    assert (Hcp : cp = Cases.shown_property (JObj m)).
    { unfold Cases.shown_property, Spec.record_property.
      fold NOTION_CITY_PROPERTY_NAME.
      destruct (Py.lookup (py "properties") m) as [p|].
      - subst p. now destruct (Py.lookup NOTION_CITY_PROPERTY_NAME props).
      - injection H1 as ->. exact H2. }
    rewrite Hout. rewrite Hsame in Hres. destruct (Spec.valid_record (JObj m)).
    + assert (Hlen : List.length cities = List.length (cities ++ [Spec.record_name (JObj m)]))
        by now rewrite <- Hres.
      rewrite length_app in Hlen. simpl in Hlen. lia.
    + unfold Cases.warning_of. now rewrite <- Hcp.
Qed.

Lemma stdout_visit_pages_Ok (pages : list json) (cities cities' : list pystr)
      (out : list Stdout.line) :
  Stdout.visit_pages pages cities = (out, Ok cities') ->
  out = map Cases.warning_of (filter (fun page => negb (Spec.valid_record page)) pages).
Proof.
  revert cities out. induction pages as [|page pages IH]; intros cities out H;
    simpl in H.
  - now injection H as <-.
  - destruct (Stdout.visit_page page cities) as [out1 [mid|e]] eqn:H1.
    + destruct (Stdout.visit_pages pages mid) as [out2 r] eqn:H2.
      injection H as <- ->.
      apply stdout_visit_page_Ok in H1. apply IH in H2. subst out1 out2.
      simpl. now destruct (Spec.valid_record page).
    + discriminate.
Qed.

(** The lines of the loop are warnings. *)
Lemma stdout_visit_pages_warnings (pages : list json) (cities : list pystr) :
  forallb Stdout.is_warning (fst (Stdout.visit_pages pages cities)) = true.
Proof.
  revert cities. induction pages as [|page pages IH]; intros cities; simpl;
    [reflexivity|].
  assert (Hpage : forallb Stdout.is_warning (fst (Stdout.visit_page page cities)) = true).
  { unfold Stdout.visit_page.
    match goal with
    | |- context [match ?r with Ok _ => _ | Raise _ => _ end] =>
      destruct r as [[[cp city_name] [|]]|e]; try reflexivity
    end.
    destruct (Py.get page (py "id") (JStr (py "未知ID"))) as [page_id|e];
      [|reflexivity].
    destruct (print_warning page_id cp) as [[]|e]; reflexivity. }
  destruct (Stdout.visit_page page cities) as [out1 [mid|e]]; cbn [fst] in *.
  - specialize (IH mid). destruct (Stdout.visit_pages pages mid) as [out2 r].
    cbn [fst] in *. rewrite forallb_app. now rewrite Hpage, IH.
  - exact Hpage.
Qed.

Lemma filter_partition_length (f : json -> bool) (l : list json) :
  (List.length (filter (fun x => negb (f x)) l) + List.length (filter f l))%nat =
  List.length l.
Proof.
  induction l as [|x l IH]; simpl; [reflexivity|].
  destruct (f x); simpl; lia.
Qed.

(** X22.  When all the records are read without an exception, each of them
    gives exactly one of a name in the reply or a warning on stdout: the
    warnings are those of the records that are not valid, in their order,
    each with the [id] of its record (or [未知ID]) and its property, and
    the last line printed counts the names returned. *)
Theorem every_record_is_named_or_warned
        (cfg : config) (post : Requests.request -> result response)
        (r : response) (fields : list (pystr * json)) (records : list json) :
  post (query cfg) = Ok r ->
  status_code r < 400 \/ 600 <= status_code r ->
  content r = Json (JObj fields) ->
  Py.lookup (py "results") fields = Some (JArr records) ->
  forallb extracts records = true ->
  let names := map Spec.record_name (filter Spec.valid_record records) in
  let warnings :=
    map Cases.warning_of (filter (fun page => negb (Spec.valid_record page)) records) in
  Stdout.get_cities cfg post =
    (Stdout.Text (py "正在向 Notion API 发送请求...")
       :: warnings ++ [Stdout.Summary (List.length names) names],
     Respond (JArr (map JStr names)) 200) /\
  (List.length warnings + List.length names)%nat = List.length records.
Proof.
  intros Hpost Hst Hbody Hres Hex names warnings. split.
  - unfold Stdout.get_cities. rewrite Hpost. cbn [bind].
    rewrite (raise_for_status_passes r Hst). cbn [bind].
    unfold Requests.json_of. rewrite Hbody. cbn [bind Py.get]. rewrite Hres.
    cbn [bind Py.iter].
    pose proof (stdout_visit_pages_result records []) as Hsnd.
    rewrite (visit_pages_extracts records [] Hex) in Hsnd. cbn [app] in Hsnd.
    destruct (Stdout.visit_pages records []) as [out res] eqn:Hout.
    cbn [snd] in Hsnd. subst res.
    apply stdout_visit_pages_Ok in Hout. now subst out.
  - unfold warnings, names. rewrite !length_map. apply filter_partition_length.
Qed.

Lemma number_record_is_warned :
  Stdout.get_cities cfg (upstream (Ok (answer 200 "OK" (listing tokyo_and_number)))) =
    ([ Stdout.Text (py "正在向 Notion API 发送请求...");
       Stdout.Warning (JStr (py "2")) number_property;
       Stdout.Summary 1 [py "Tokyo"] ],
     Respond (JArr [JStr (py "Tokyo")]) 200) /\
  (1 + 1)%nat = 2%nat.
Proof.
  apply (every_record_is_named_or_warned
           cfg (upstream (Ok (answer 200 "OK" (listing tokyo_and_number))))
           (answer 200 "OK" (listing tokyo_and_number))
           [ (py "object", JStr (py "list")); (py "results", JArr tokyo_and_number) ]
           tokyo_and_number).
  - reflexivity.
  - left. simpl. lia.
  - reflexivity.
  - reflexivity.
  - vm_compute. reflexivity.
Defined.

(** X23.  The summary line is printed only for a reply with status 200,
    and what it shows is what is returned: its list is the array of the
    reply and its count the length of that array. *)
Theorem summary_reports_the_reply
        (cfg : config) (post : Requests.request -> result response)
        (out : list Stdout.line) (reply : Index.reply)
        (count : nat) (cities : list pystr) :
  Stdout.get_cities cfg post = (out, reply) ->
  In (Stdout.Summary count cities) out ->
  reply = Respond (JArr (map JStr cities)) 200 /\ count = List.length cities.
Proof.
  assert (Hhandle : forall e lines answer,
             Stdout.handle e = (lines, answer) ->
             ~ In (Stdout.Summary count cities) lines).
  { intros e lines answer He. unfold Stdout.handle in He.
    destruct (is_Timeout e); [|destruct (is_RequestException e)];
      injection He as <- _; intros [H|[]]; discriminate H. }
  assert (Hwarn : forall pages acc,
             ~ In (Stdout.Summary count cities) (fst (Stdout.visit_pages pages acc))).
  { intros pages acc Hin.
    pose proof (stdout_visit_pages_warnings pages acc) as Hw.
    rewrite forallb_forall in Hw. specialize (Hw _ Hin). discriminate Hw. }
  unfold Stdout.get_cities.
  match goal with
  | |- context [match ?r with Ok _ => _ | Raise _ => _ end] =>
    destruct r as [pages|e]
  end.
  - specialize (Hwarn pages []).
    destruct (Stdout.visit_pages pages []) as [warnings [names|e]]; cbn [fst] in Hwarn.
    + intros H. injection H as <- <-. intros [H|H]; [discriminate H|].
      apply in_app_or in H as [H|[H|[]]]; [now elim Hwarn|].
      injection H as <- <-. now split.
    + destruct (Stdout.handle e) as [lines answer] eqn:He.
      intros H. injection H as <- <-. intros [H|H]; [discriminate H|].
      apply in_app_or in H as [H|H]; [now elim Hwarn|].
      now elim (Hhandle e lines answer He).
  - destruct (Stdout.handle e) as [lines answer] eqn:He.
    intros H. injection H as <- <-. intros [H|H]; [discriminate H|].
    now elim (Hhandle e lines answer He).
Qed.

Lemma summary_of_tokyo :
  Respond (JArr [JStr (py "Tokyo")]) 200 = Respond (JArr (map JStr [py "Tokyo"])) 200 /\
  1%nat = List.length [py "Tokyo"].
Proof.
  apply (summary_reports_the_reply
           cfg (upstream (Ok (answer 200 "OK" (listing tokyo_and_number))))
           [ Stdout.Text (py "正在向 Notion API 发送请求...");
             Stdout.Warning (JStr (py "2")) number_property;
             Stdout.Summary 1 [py "Tokyo"] ]
           (Respond (JArr [JStr (py "Tokyo")]) 200)
           1%nat [py "Tokyo"]).
  - vm_compute. reflexivity.
  - right. right. left. reflexivity.
Defined.

(** ** The warning that stdout refuses *)

(** Where the warning is printed, the property it shows is falsy or a
    [dict]: it is never a text that could hold a surrogate of its own. *)
Lemma warned_property_is_falsy_or_object
      (page : json) (cities : list pystr) (page_id city_property : json) :
  In (Stdout.Warning page_id city_property) (fst (Stdout.visit_page page cities)) ->
  Py.truthy city_property = false \/ Cases.is_object city_property = true.
Proof.
  unfold Stdout.visit_page.
  destruct (Py.get page (py "properties") (JObj [])) as [properties|e];
    cbn [bind]; [|intros []].
  destruct (Py.get properties NOTION_CITY_PROPERTY_NAME JNull) as [cp|e];
    cbn [bind]; [|intros []].
  destruct (city_name_of cp) as [city_name|e] eqn:Hname; cbn [bind]; [|intros []].
  match goal with
  | |- context [bind ?r _] => destruct r as [[|]|e]; cbn [bind]; try (intros [])
  end.
  destruct (Py.get page (py "id") (JStr (py "未知ID"))) as [id|e]; [|intros []].
  destruct (print_warning id cp) as [[]|e]; [|intros []].
  intros [H|[]]. injection H as _ <-.
  unfold city_name_of in Hname.
  destruct (Py.truthy cp) eqn:Htruthy; [right | now left].
  apply bind_Ok in Hname as [is_title [H1 _]].
  unfold kind_with_payload in H1. apply bind_Ok in H1 as [t [H1 _]].
  apply getitem_Ok in H1 as [m [-> _]]. reflexivity.
Qed.

(** The record whose [id] is the lone surrogate U+D800: the warning of
    line 98 raises, and the request is answered with 500 and the text of
    the encoder. *)
Lemma surrogate_id_fails_request :
  get_cities cfg (upstream (Ok (answer 200 "OK" (listing [surrogate_page])))) =
    Respond
      (JObj [(py "error",
              JStr (py "服务器内部错误: 'utf-8' codec can't encode character '\ud800' in position 6: surrogates not allowed"))])
      500.
Proof. vm_compute. reflexivity. Qed.
